(** * A shallow embedding of the [functional] Go library

    Packages covered, each as a Rocq module of the same name:
    - [optional]   : [Option] and [Result] (option.go, result.go);
    - [iterator]   : the [Iterator] interface, [Slice], [Chan], [Func],
                     [WaitForNext] (iterator.go);
    - [functional] : [ForEach], [Any], [All], [Collect], [Equal], [Filter],
                     [Map], [Reduce], [Sort] over iterators (functional.go)
                     and the numeric helpers [Sum] to [Quadruple]
                     (number.go);
    - [functions]  : [Chain], [Compose] and the slice versions of
                     [Filter], [Map], [Reduce] (functions.go).

    Conventions.  A Go slice is a [list] (capacity is not observable by the
    properties below).  A Go [int] is a [Z]; arithmetic on element values
    wraps at 64 bits ([wrap64]), while lengths and cursors stay far from the
    bounds.  A Go function value is an [option] of a Rocq function, [None]
    being the nil function; callbacks are pure and total.  A computation that
    may panic, block on a channel or loop for ever yields an [Outcome]. *)

From Stdlib Require Import ZArith String.
From Stdlib Require PrimFloat.
From stdpp Require Import base tactics option list strings.

Local Open Scope Z_scope.

(** ** Outcomes of Go computations *)

Inductive Outcome (A : Type) : Type :=
| Return (a : A)          (* normal return *)
| Panic (msg : string)    (* panic(...) or a runtime error *)
| Blocked                 (* parked for ever on a channel operation *)
| OutOfFuel.              (* the loop bound of the model was reached *)
Arguments Return {A} a.
Arguments Panic {A} msg.
Arguments Blocked {A}.
Arguments OutOfFuel {A}.

#[global] Instance Outcome_ret : MRet Outcome := fun _ a => Return a.
#[global] Instance Outcome_bind : MBind Outcome := fun _ _ k m =>
  match m with
  | Return a => k a
  | Panic msg => Panic msg
  | Blocked => Blocked
  | OutOfFuel => OutOfFuel
  end.

Definition returns {A} (m : Outcome A) : bool :=
  match m with Return _ => true | _ => false end.

(** The first component of what a computation returns. *)
Definition answer {A B} (m : Outcome (A * B)) : Outcome A :=
  '(a, _) ← m; Return a.

(** The runtime error raised by a method call through a nil interface or by
    a call of a nil function value. *)
Definition nil_dereference : string :=
  "runtime error: invalid memory address or nil pointer dereference".

Definition index_out_of_range : string :=
  "runtime error: index out of range".

(** ** Zero values, comparison and the [int] type *)

Class ZeroValue (T : Type) : Type := zero : T.
#[global] Instance Z_zero : ZeroValue Z := 0.
#[global] Instance bool_zero : ZeroValue bool := false.
#[global] Instance string_zero : ZeroValue string := EmptyString.
#[global] Instance list_zero {T} : ZeroValue (list T) := [].

(** The constraint [comparable]: the operator [==] of the type. *)
Class comparable (T : Type) : Type := equal : T -> T -> bool.
#[global] Instance Z_comparable : comparable Z := Z.eqb.
#[global] Instance bool_comparable : comparable bool := Bool.eqb.
#[global] Instance string_comparable : comparable string := String.eqb.

(** [float64]: the binary64 numbers of IEEE 754.  Its [==] is the IEEE
    comparison, under which a NaN differs from every number, itself
    included. *)
Definition float64 : Type := PrimFloat.float.
#[global] Instance float64_zero : ZeroValue float64 := PrimFloat.zero.
#[global] Instance float64_comparable : comparable float64 := PrimFloat.eqb.
(** [math.NaN()]. *)
Definition NaN : float64 := PrimFloat.nan.

Definition wrap64 (z : Z) : Z := (z + 2 ^ 63) mod 2 ^ 64 - 2 ^ 63.

Definition int_add (a b : Z) : Z := wrap64 (a + b).
Definition int_mul (a b : Z) : Z := wrap64 (a * b).
(** [a / b] on [int] for a non-zero divisor: truncated division. *)
Definition int_quot (a b : Z) : Z := wrap64 (Z.quot a b).

(** ** Slices and function values *)

(** [len(s)]. *)
Definition len {T} (s : list T) : Z := Z.of_nat (length s).

(** [s[i]]. *)
Definition at_index {T} (s : list T) (i : Z) : Outcome T :=
  if i <? 0 then Panic index_out_of_range
  else match s !! Z.to_nat i with
       | Some v => Return v
       | None => Panic index_out_of_range
       end.

(** A Go function value of one or two arguments; [None] is nil. *)
Definition func (A B : Type) : Type := option (A -> B).
Definition func2 (A B C : Type) : Type := option (A -> B -> C).

Definition call {A B} (f : func A B) (a : A) : Outcome B :=
  match f with
  | Some f => Return (f a)
  | None => Panic nil_dereference
  end.

Definition call2 {A B C} (f : func2 A B C) (a : A) (b : B) : Outcome C :=
  match f with
  | Some f => Return (f a b)
  | None => Panic nil_dereference
  end.

(** ** Package optional *)

Module optional.

(** The [error] interface.  An error object answers [Error()]; the nil
    interface holds no object. *)
Record errorObject : Type := errors_New { text : string }.
Definition error : Type := option errorObject.
Definition nil : error := Datatypes.None.

Definition error_Error (e : error) : Outcome string :=
  match e with
  | Datatypes.Some obj => Return (text obj)
  | Datatypes.None => Panic nil_dereference
  end.

Record Option (T : Type) : Type := mkOption { some : bool; value : T }.
Arguments mkOption {T} some value.
Arguments some {T} o.
Arguments value {T} o.

Record Result (T : Type) : Type := mkResult { opt : Option T; err : error }.
Arguments mkResult {T} opt err.
Arguments opt {T} r.
Arguments err {T} r.

#[global] Instance Option_zero {T} `{ZeroValue T} : ZeroValue (Option T) :=
  {| some := false; value := zero |}.
#[global] Instance Result_zero {T} `{ZeroValue T} : ZeroValue (Result T) :=
  {| opt := zero; err := nil |}.

Section Methods.
Context {T : Type} `{ZeroValue T}.
(** [fmt.Sprintf("%+v", v)] at type [T]. *)
Variable Sprintf_v : T -> string.

Definition Option_IsSome (o : Option T) : bool := some o.

Definition Option_Get (o : Option T) : T := value o.

Definition Option_Expect (o : Option T) : Outcome T :=
  if negb (Option_IsSome o) then Panic "optional: Expect() called on None"
  else Return (value o).

Definition Option_String (o : Option T) : Outcome string :=
  if Option_IsSome o then v ← Option_Expect o; Return (Sprintf_v v)
  else Return "None"%string.

Definition Some (t : T) : Option T := {| value := t; some := true |}.

Definition None : Option T := zero.

Definition Result_Ok (r : Result T) : bool := Option_IsSome (opt r).

Definition Result_Get (r : Result T) : T := Option_Get (opt r).

Definition Result_Err (r : Result T) : error := err r.

Definition Result_Expect (r : Result T) : Outcome T :=
  if negb (Result_Ok r) then Panic "optional: Expect() called on error result"
  else Return (value (opt r)).

Definition Result_String (r : Result T) : Outcome string :=
  if Result_Ok r then Option_String (opt r)
  else error_Error (err r).

Definition Ok (t : T) : Result T := {| opt := Some t; err := nil |}.

Definition Err (e : error) : Result T := {| opt := zero; err := e |}.
End Methods.

End optional.


(** ** Package context (the part [WaitForNext] observes) *)

Module context.

(** A context as seen by a [select]: whether its [Done()] channel is closed
    at the moment the select polls it. *)
Record Context : Type := mkContext { Done_closed : bool }.

Definition Background : Context := {| Done_closed := false |}.

(** [ctx, cancel := context.WithCancel(parent); cancel()]. *)
Definition canceled : Context := {| Done_closed := true |}.

End context.

(** ** Package iterator *)

Module iterator.

Import context.

(** [Slice[T]]: the values and the unexported cursor.  Values of this type
    are used through a pointer, so every method returns the updated
    struct. *)
Record Slice (T : Type) : Type := mkSlice { Values : list T; index : Z }.
Arguments mkSlice {T} Values index.
Arguments Values {T} s.
Arguments index {T} s.

(** [Chan[T]], a receive-only channel: nil, or a queue of sent values
    together with the closed flag. *)
Inductive Chan (T : Type) : Type :=
| nil_chan
| chan (queue : list T) (closed : bool).
Arguments nil_chan {T}.
Arguments chan {T} queue closed.

(** A non-nil [func() optional.Option[T]]: a closure over a private
    environment that each call may update. *)
Record closure (T : Type) : Type := mkClosure {
  env : Type;
  body : env -> Outcome (optional.Option T * env);
  captured : env
}.
Arguments mkClosure {T} env body captured.
Arguments env {T} c.
Arguments body {T} c.
Arguments captured {T} c.

(** [Func[T]]; [None] is the nil function. *)
Definition Func (T : Type) : Type := option (closure T).

(** A value of interface type [Iterator[T]], by dynamic type.  The
    implementations are [*Slice[T]], [Chan[T]] and [Func[T]] of this package
    and [sorted[T]] of package functional, a struct that embeds an
    [Iterator[T]]. *)
Inductive Iterator (T : Type) : Type :=
| nil_Iterator
| PSlice (s : Slice T)
| IChan (c : Chan T)
| IFunc (f : Func T)
| sorted (embedded : Iterator T).
Arguments nil_Iterator {T}.
Arguments PSlice {T} s.
Arguments IChan {T} c.
Arguments IFunc {T} f.
Arguments sorted {T} embedded.

(** The two cases of the selects in this package, and the case the runtime
    picks when both can proceed. *)
Inductive SelectCase : Type := RecvCase | DoneCase.

(** How the goroutine started by [waitForNext] interleaves with the select
    of its caller: either the goroutine has sent the result of [Next()]
    before the select polls (and the select then picks a case), or the
    select polls first. *)
Inductive Schedule : Type :=
| ProducerFirst (pick : SelectCase)
| SelectFirst.

(** What [waitForNext] leaves behind: the option it returns, the source as
    it is at the return, and whether the goroutine has yet to call
    [Next()] on it. *)
Record Waited (T : Type) : Type := mkWaited {
  result : optional.Option T;
  source : Iterator T;
  producer_pending : bool
}.
Arguments mkWaited {T} result source producer_pending.
Arguments result {T} w.
Arguments source {T} w.
Arguments producer_pending {T} w.

Section Methods.
Context {T : Type} `{ZeroValue T}.

Definition Slice_Count (s : Slice T) : Z := len (Values s) - index s.

Definition Slice_Next (s : Slice T) : Outcome (optional.Option T * Slice T) :=
  if len (Values s) >? index s then
    let s := {| Values := Values s; index := index s + 1 |} in
    v ← at_index (Values s) (index s - 1);
    Return (optional.Some v, s)
  else Return (optional.None, s).

Definition Slice_WaitForNext (_ : Context) (s : Slice T)
  : Outcome (optional.Option T * Slice T) := Slice_Next s.

(** [v, ok := <-c]. *)
Definition receive (c : Chan T) : Outcome (T * bool * Chan T) :=
  match c with
  | nil_chan => Blocked
  | chan (v :: q) closed => Return (v, true, chan q closed)
  | chan [] true => Return (zero, false, c)
  | chan [] false => Blocked
  end.

Definition can_receive (c : Chan T) : bool :=
  match c with
  | nil_chan => false
  | chan (_ :: _) _ => true
  | chan [] closed => closed
  end.

Definition Chan_Next (c : Chan T) : Outcome (optional.Option T * Chan T) :=
  '(v, ok, c) ← receive c;
  if (ok : bool) then Return (optional.Some v, c)
  else Return (optional.None, c).

Definition Chan_WaitForNext (pick : SelectCase) (ctx : Context) (c : Chan T)
  : Outcome (optional.Option T * Chan T) :=
  let on_receive :=
    '(v, ok, c) ← receive c;
    if (ok : bool) then Return (optional.Some v, c)
    else Return (optional.None, c) in
  let on_done := Return (optional.None, c) in
  match can_receive c, Done_closed ctx with
  | true, true => match pick with RecvCase => on_receive | DoneCase => on_done end
  | true, false => on_receive
  | false, true => on_done
  | false, false => Blocked
  end.

Definition Func_Next (f : Func T) : Outcome (optional.Option T * Func T) :=
  match f with
  | Some c =>
      '(o, e) ← body c (captured c);
      Return (o, Some {| env := env c; body := body c; captured := e |})
  | None => Return (optional.None, f)
  end.

(** [iter.Next()] through the interface. *)
Fixpoint Next (iter : Iterator T) : Outcome (optional.Option T * Iterator T) :=
  match iter with
  | nil_Iterator => Panic nil_dereference
  | PSlice s => '(o, s) ← Slice_Next s; Return (o, PSlice s)
  | IChan c => '(o, c) ← Chan_Next c; Return (o, IChan c)
  | IFunc f => '(o, f) ← Func_Next f; Return (o, IFunc f)
  | sorted it => '(o, it) ← Next it; Return (o, sorted it)
  end.

Definition waitForNext (sched : Schedule) (ctx : Context) (iter : Iterator T)
  : Outcome (Waited T) :=
  let unread := {| result := optional.None; source := iter;
                   producer_pending := true |} in
  match sched with
  | SelectFirst =>
      if Done_closed ctx then Return unread
      else '(o, iter) ← Next iter;
           Return {| result := o; source := iter; producer_pending := false |}
  | ProducerFirst pick =>
      match Next iter with
      | Return (o, iter) =>
          let got := {| result := o; source := iter;
                        producer_pending := false |} in
          let dropped := {| result := optional.None; source := iter;
                            producer_pending := false |} in
          if Done_closed ctx
          then match pick with RecvCase => Return got | DoneCase => Return dropped end
          else Return got
      | Blocked => if Done_closed ctx then Return unread else Blocked
      | Panic msg => Panic msg
      | OutOfFuel => OutOfFuel
      end
  end.

(** The package-level [WaitForNext]: [*Slice[T]] and [Chan[T]] implement
    [BlockingIterator[T]]; every other dynamic type goes through
    [waitForNext]. *)
Definition WaitForNext (sched : Schedule) (pick : SelectCase)
  (ctx : Context) (iter : Iterator T) : Outcome (Waited T) :=
  match iter with
  | PSlice s =>
      '(o, s) ← Slice_WaitForNext ctx s;
      Return {| result := o; source := PSlice s; producer_pending := false |}
  | IChan c =>
      '(o, c) ← Chan_WaitForNext pick ctx c;
      Return {| result := o; source := IChan c; producer_pending := false |}
  | _ => waitForNext sched ctx iter
  end.

(** [Send(values...)]: a channel buffered for all the values, with all of
    them sent. *)
Definition Send (values : list T) : Chan T := chan values false.

(** [close(c)]. *)
Definition close (c : Chan T) : Outcome (Chan T) :=
  match c with
  | nil_chan => Panic "close of nil channel"
  | chan _ true => Panic "close of closed channel"
  | chan queue false => Return (chan queue true)
  end.

(** A value of interface type [Enumerable[T]]; [*Slice[T]] is its only
    implementation and [None] is the nil interface. *)
Definition Enumerable : Type := option (Slice T).

Definition Enumerable_Count (e : Enumerable) : Outcome Z :=
  match e with
  | Some s => Return (Slice_Count s)
  | None => Panic nil_dereference
  end.

Definition Enumerable_Next (e : Enumerable)
  : Outcome (optional.Option T * Enumerable) :=
  match e with
  | Some s => '(o, s) ← Slice_Next s; Return (o, Some s)
  | None => Panic nil_dereference
  end.

(** The conversion of an [Enumerable[T]] to [Iterator[T]]. *)
Definition as_Iterator (e : Enumerable) : Iterator T :=
  match e with
  | Some s => PSlice s
  | None => nil_Iterator
  end.

End Methods.

Arguments Enumerable T : clear implicits.

End iterator.


(** ** Package functional, version 2 (functional.go) *)

Module functional.

Import iterator.

(** The [Comparable] interface. *)
Class Comparable (T : Type) : Type := Less : T -> T -> bool.

Definition defaultSize : Z := 16.

Section Combinators.
Context {T : Type} `{ZeroValue T}.

Definition getSizeHint (iter : Iterator T) : Z :=
  match iter with
  | PSlice sized =>
      let count := Slice_Count sized in
      if count >? 0 then count else defaultSize
  | _ => defaultSize
  end.

(** [make([]U, 0, getSizeHint(iter))]. *)
Definition allocate {U : Type} (iter : Iterator T) : list U := [].

(** The loop of [ForEach].  The callback [fn] acts on the variables it
    captures, here the state [A], and reports whether it called [stop]. *)
Fixpoint ForEach_loop {A : Type} (fuel : nat) (iter : Iterator T)
  (fn : A -> T -> Outcome (A * bool)) (a : A) : Outcome (A * Iterator T) :=
  match fuel with
  | O => OutOfFuel
  | S fuel =>
      '(opt, iter) ← Next iter;
      if optional.Option_IsSome opt then
        t ← optional.Option_Expect opt;
        '(a, stopped) ← fn a t;
        if (stopped : bool) then Return (a, iter)
        else ForEach_loop fuel iter fn a
      else Return (a, iter)
  end.

Definition ForEach {A : Type} (fuel : nat) (iter : Iterator T)
  (fn : A -> T -> Outcome (A * bool)) (a : A) : Outcome (A * Iterator T) :=
  match iter with
  | nil_Iterator => Return (a, iter)
  | _ => ForEach_loop fuel iter fn a
  end.

Definition Collect (fuel : nat) (iter : Iterator T)
  : Outcome (list T * Iterator T) :=
  ForEach fuel iter (fun slice t => Return (slice ++ [t], false))
    (allocate iter).

(** The comparison loop of [Equal]. *)
Fixpoint Equal_loop `{comparable T} (fuel : nat) (idx : Z)
  (aValues bValues : list T) : Outcome bool :=
  match fuel with
  | O => OutOfFuel
  | S fuel =>
      if idx <? len aValues then
        x ← at_index aValues idx;
        y ← at_index bValues idx;
        if negb (equal x y) then Return false
        else Equal_loop fuel (idx + 1) aValues bValues
      else Return true
  end.

(** [Equal(a, b)] for two distinct iterator objects; besides the answer it
    yields both iterators as the call leaves them. *)
Definition Equal `{comparable T} (fuel : nat) (a b : Iterator T)
  : Outcome (bool * (Iterator T * Iterator T)) :=
  if bool_decide (getSizeHint a ≠ getSizeHint b) then Return (false, (a, b))
  else
    '(aValues, a) ← Collect fuel a;
    '(bValues, b) ← Collect fuel b;
    if bool_decide (len aValues ≠ len bValues) then Return (false, (a, b))
    else
      eq ← Equal_loop (S (length aValues)) 0 aValues bValues;
      Return (eq, (a, b)).

Definition Filter (fuel : nat) (iter : Iterator T) (fn : func T bool)
  : Outcome (Iterator T * Iterator T) :=
  let filtered := {| Values := allocate iter; index := 0 |} in
  '(filtered, iter) ←
    ForEach fuel iter
      (fun filtered t =>
         keep ← call fn t;
         if (keep : bool)
         then Return ({| Values := Values filtered ++ [t];
                         index := index filtered |}, false)
         else Return (filtered, false))
      filtered;
  Return (PSlice filtered, iter).

(** [Map] yields the new iterator and the argument as the call leaves it. *)
Definition Map {To : Type} (fuel : nat) (iter : Iterator T) (fn : func T To)
  : Outcome (Iterator To * Iterator T) :=
  let mapped := {| Values := allocate iter; index := 0 |} in
  '(mapped, iter) ←
    ForEach fuel iter
      (fun mapped x =>
         y ← call fn x;
         Return ({| Values := Values mapped ++ [y];
                    index := index mapped |}, false))
      mapped;
  Return (PSlice mapped, iter).

Definition Reduce {To : Type} `{ZeroValue To} (fuel : nat)
  (iter : Iterator T) (fn : func2 To T To) : Outcome (To * Iterator T) :=
  let accumulator : To := zero in
  ForEach fuel iter
    (fun accumulator x =>
       accumulator ← call2 fn accumulator x; Return (accumulator, false))
    accumulator.

(** [Sort], over the three functions of the standard package sort that it
    calls on [comparables[T]], each taking the [Less] of the elements.  It
    yields the returned iterator and the argument as the call leaves it. *)
Definition Sort `{Comparable T}
  (sort_IsSorted : (T -> T -> bool) -> list T -> bool)
  (sort_Sort sort_Stable : (T -> T -> bool) -> list T -> list T)
  (fuel : nat) (iter : Iterator T) (stable : bool)
  : Outcome (Iterator T * Iterator T) :=
  match iter with
  | sorted _ => Return (iter, iter)
  | _ =>
      '(values, iter) ← Collect fuel iter;
      let values :=
        if negb (sort_IsSorted Less values) then
          if stable then sort_Stable Less values
          else sort_Sort Less values
        else values in
      Return (sorted (PSlice {| Values := values; index := 0 |}), iter)
  end.

(** [Any] and [All] only ever call their function argument, so it is given
    by what a call of it does: [call f] for the function value [f], nil or
    not, and the closure [func(t T) bool { return !fn(t) }] for [All]. *)
Definition Any (fuel : nat) (iter : Iterator T) (fn : T -> Outcome bool)
  : Outcome (bool * Iterator T) :=
  let any := false in
  ForEach fuel iter (fun _ t => any ← fn t; Return (any, any)) any.

Definition All (fuel : nat) (iter : Iterator T) (fn : T -> Outcome bool)
  : Outcome (bool * Iterator T) :=
  '(any, iter) ← Any fuel iter (fun t => b ← fn t; Return (negb b));
  Return (negb any, iter).

(** [Equal(a, a)]: both parameters hold the same iterator object, so the
    second [Collect] runs on what the first one left. *)
Definition Equal_same `{comparable T} (fuel : nat) (a : Iterator T)
  : Outcome (bool * Iterator T) :=
  if bool_decide (getSizeHint a ≠ getSizeHint a) then Return (false, a)
  else
    '(aValues, a) ← Collect fuel a;
    '(bValues, a) ← Collect fuel a;
    if bool_decide (len aValues ≠ len bValues) then Return (false, a)
    else
      eq ← Equal_loop (S (length aValues)) 0 aValues bValues;
      Return (eq, a).

(** [Reduce] for a callback that also updates a variable it captures, of
    type [S]. *)
Definition Reduce_capturing {To S : Type} `{ZeroValue To} (fuel : nat)
  (iter : Iterator T) (fn : To -> T -> S -> Outcome (To * S)) (captured : S)
  : Outcome (To * S * Iterator T) :=
  let accumulator : To := zero in
  '(state, iter) ←
    ForEach fuel iter
      (fun '(accumulator, captured) x =>
         '(accumulator, captured) ← fn accumulator x captured;
         Return ((accumulator, captured), false))
      (accumulator, captured);
  Return (state, iter).

End Combinators.

(** *** number.go *)

(** The constraint [Number]: the operators [+] and [*] of the type. *)
Class Number (T : Type) : Type := { plus : T -> T -> T; times : T -> T -> T }.
#[global] Instance int_Number : Number Z :=
  {| plus := int_add; times := int_mul |}.

Section Numbers.
Context {T : Type} `{ZeroValue T} `{Number T}.

Definition Sum (fuel : nat) (iter : Iterator T) : Outcome (T * Iterator T) :=
  Reduce fuel iter (Some (fun accum cur => plus accum cur)).

Definition MultiplyScalar (fuel : nat) (iter : Iterator T)
  : Outcome (T * Iterator T) :=
  Reduce fuel iter (Some (fun accum cur => times accum cur)).

Definition MultiplyVector (fuel : nat) (iter : Iterator T) (factor : T)
  : Outcome (Iterator T * Iterator T) :=
  Map fuel iter (Some (fun x => times x factor)).

(** [DotProduct(a, b)] for two distinct objects; it yields the product and
    both arguments as the call leaves them. *)
Definition DotProduct (fuel : nat) (a b : Enumerable T)
  : Outcome (T * (Iterator T * Enumerable T)) :=
  count_a ← Enumerable_Count a;
  count_b ← Enumerable_Count b;
  if bool_decide (count_a ≠ count_b) then
    Panic "functional: dot product on iterators with different dimensions"
  else
    '(accum, b, a) ←
      Reduce_capturing fuel (as_Iterator a)
        (fun accum x b =>
           '(o, b) ← Enumerable_Next b;
           y ← optional.Option_Expect o;
           Return (plus accum (times x y), b))
        b;
    Return (accum, (a, b)).

Definition Square (fuel : nat) (iter : Iterator T)
  : Outcome (Iterator T * Iterator T) :=
  Map fuel iter (Some (fun x => times x x)).

Definition Triple (fuel : nat) (iter : Iterator T)
  : Outcome (Iterator T * Iterator T) :=
  Map fuel iter (Some (fun x => times (times x x) x)).

Definition Quadruple (fuel : nat) (iter : Iterator T)
  : Outcome (Iterator T * Iterator T) :=
  Map fuel iter (Some (fun x => times (times (times x x) x) x)).

End Numbers.

End functional.


(** ** Package functional, version 1 (functions.go) *)

Module functions.

(** [bork(v)]: panic with the prefix of the package. *)
Definition bork {A : Type} (v : string) : Outcome A :=
  Panic ("functional: " ++ v)%string.

Section Functions.
Context {T : Type}.

(** The [range] loop of [Chain] over the remaining functions, [f] being
    the composition built so far. *)
Fixpoint Chain_loop (fns : list (func T T)) (f : T -> T) : Outcome (T -> T) :=
  match fns with
  | [] => Return f
  | fn :: fns =>
      match fn with
      | None => bork "nil chain function"
      | Some fnCopy =>
          let old := f in
          Chain_loop fns (fun t => old (fnCopy t))
      end
  end.

Definition Chain (fns : list (func T T)) : Outcome (T -> T) :=
  Chain_loop fns (fun t => t).

Definition Compose {Middle Out : Type} (f : func Middle Out) (g : func T Middle)
  : Outcome (T -> Out) :=
  match f, g with
  | None, _ => bork "nil f"
  | Some _, None => bork "nil g"
  | Some f, Some g => Return (fun x => f (g x))
  end.

Definition Filter (list : list T) (filter : func T bool)
  : Outcome (Datatypes.list T) :=
  match filter with
  | None => bork "nil filter"
  | Some filter =>
      Return (fold_left (fun filteredList v =>
                           if filter v then filteredList ++ [v]
                           else filteredList) list [])
  end.

Definition Map {To : Type} (list : list T) (mapper : func T To)
  : Outcome (Datatypes.list To) :=
  match mapper with
  | None => bork "nil mapper"
  | Some mapper =>
      Return (fold_left (fun mappedList v => mappedList ++ [mapper v]) list [])
  end.

(** The [range] loop of [Reduce]. *)
Fixpoint Reduce_loop {To : Type} (list : list T) (reducer : To -> T -> To)
  (accum : To) : To :=
  match list with
  | [] => accum
  | v :: list => Reduce_loop list reducer (reducer accum v)
  end.

Definition Reduce {To : Type} `{ZeroValue To} (list : list T)
  (reducer : func2 To T To) : Outcome To :=
  match reducer with
  | None => bork "nil reducer"
  | Some reducer => Return (Reduce_loop list reducer zero)
  end.

End Functions.

End functions.

(** ** Values used by the tests and examples of the repository *)

Module examples.

Import iterator.

(** [&iterator.Slice[T]{Values: values}], the helper [Iterator] of
    functional_test.go. *)
Definition iteratorOver {T : Type} (values : list T) : Iterator T :=
  PSlice {| Values := values; index := 0 |}.

(** The closure built by [funcIteratorOf] in iterator_test.go: it receives
    from a private channel that was filled with the values and closed. *)
Definition funcIteratorOf {T : Type} `{ZeroValue T} (v : list T) : Func T :=
  Some {| env := Chan T;
          body := fun ch => Chan_Next ch;
          captured := chan v true |}.

(** [ExampleChain]. *)
Definition addOne (i : Z) : Z := int_add i 1.
Definition square (i : Z) : Z := int_mul i i.
Definition halve (i : Z) : Z := int_quot i 2.

(** The reducer of [ExampleReduce]. *)
Definition sum (accum cur : Z) : Z := int_add accum cur.

(** The element type [Int] of functional_test.go. *)
#[global] Instance Int_Less : functional.Comparable Z := fun me other => me <? other.

(** Stand-ins for [sort.IsSorted], [sort.Stable] and [sort.Sort] of the
    standard library, used where a statement is run on concrete values. *)
Fixpoint IsSorted {T : Type} (less : T -> T -> bool) (data : list T) : bool :=
  match data with
  | [] => true
  | x :: rest =>
      match rest with
      | [] => true
      | y :: _ => negb (less y x) && IsSorted less rest
      end
  end.

Fixpoint insert_sorted {T : Type} (less : T -> T -> bool) (x : T)
  (data : list T) : list T :=
  match data with
  | [] => [x]
  | y :: rest => if less x y then x :: data else y :: insert_sorted less x rest
  end.

Definition insertion_sort {T : Type} (less : T -> T -> bool) (data : list T)
  : list T := fold_right (insert_sorted less) [] data.

End examples.


(** * Properties *)

(** ** Package optional *)

Section ResultFacts.
Context {T : Type} `{ZeroValue T}.
Variable Sprintf_v : T -> string.

Lemma Result_String_ok (r : optional.Result T) :
  optional.Result_Ok r = true ->
  optional.Result_String Sprintf_v r
  = Return (Sprintf_v (optional.value (optional.opt r))).
Proof.
  unfold optional.Result_String, optional.Result_Ok, optional.Option_String,
    optional.Option_Expect.
  intros ->. reflexivity.
Qed.

Lemma Result_String_err (r : optional.Result T) :
  optional.Result_Ok r = false ->
  optional.Result_String Sprintf_v r = optional.error_Error (optional.err r).
Proof. unfold optional.Result_String. intros ->. reflexivity. Qed.

(** C9: the zero value of [Result] is erroneous, [Ok()] is false, and yet
    [Err()] is the nil error: no error object was stored in it. *)
Theorem zero_Result_erroneous_without_error :
  optional.Result_Ok (zero : optional.Result T) = false /\
  optional.Result_Err (zero : optional.Result T) = optional.nil.
Proof. split; reflexivity. Qed.

(** C10: [String()] on the zero value of [Result] panics with the nil
    dereference of the runtime, since the erroneous branch calls [Error()]
    on the nil error; on any result, [String()] returns exactly when the
    result is ok or carries a non-nil error, and panics otherwise. *)
Theorem zero_Result_String_panics :
  optional.Result_String Sprintf_v (zero : optional.Result T)
  = Panic nil_dereference /\
  (forall r : optional.Result T,
     returns (optional.Result_String Sprintf_v r) = true <->
     optional.Result_Ok r = true \/ optional.Result_Err r <> optional.nil) /\
  (forall r : optional.Result T,
     optional.Result_String Sprintf_v r = Panic nil_dereference <->
     optional.Result_Ok r = false /\ optional.Result_Err r = optional.nil).
Proof.
  split; [reflexivity|]. split; intros r.
  - destruct (optional.Result_Ok r) eqn:Hok.
    + rewrite Result_String_ok by done. simpl. intuition congruence.
    + rewrite Result_String_err by done. unfold optional.Result_Err.
      destruct (optional.err r) as [obj|]; simpl; unfold optional.nil;
        intuition congruence.
  - destruct (optional.Result_Ok r) eqn:Hok.
    + rewrite Result_String_ok by done. intuition congruence.
    + rewrite Result_String_err by done. unfold optional.Result_Err.
      destruct (optional.err r) as [obj|]; simpl; unfold optional.nil;
        intuition congruence.
Qed.

End ResultFacts.

(** ** Package functional, version 1 *)

Section ChainFacts.
Context {T : Type}.

Lemma Chain_loop_spec (fs : list (T -> T)) (f0 : T -> T) :
  exists g, functions.Chain_loop (Some <$> fs) f0 = Return g /\
            forall x, g x = f0 (foldr (fun f y => f y) x fs).
Proof.
  revert f0. induction fs as [|f fs IH]; intros f0; simpl.
  - by exists f0.
  - destruct (IH (fun t => f0 (f t))) as (g & Hg & Hx). exists g. split; [done|].
    intros x. by rewrite Hx.
Qed.

End ChainFacts.

(** C8: [Chain] composes right to left: on functions [f1 .. fn], none of
    them nil, it returns a function that maps every [x] to
    [f1 (f2 (... (fn x)))], the last one running first; so
    [Chain(halve, square, addOne)(5)] is 18. *)
Theorem Chain_composes_right_to_left :
  (forall (T : Type) (fs : list (T -> T)),
     exists g, functions.Chain (Some <$> fs) = Return g /\
               forall x, g x = foldr (fun f y => f y) x fs) /\
  (forall (T : Type) (f1 f2 f3 : T -> T),
     exists g, functions.Chain [Some f1; Some f2; Some f3] = Return g /\
               forall x, g x = f1 (f2 (f3 x))) /\
  (exists g, functions.Chain
               [Some examples.halve; Some examples.square; Some examples.addOne]
             = Return g /\ g 5 = 18).
Proof.
  split; [|split].
  - intros T fs. apply (Chain_loop_spec fs (fun t => t)).
  - intros T f1 f2 f3. eexists. split; [reflexivity|done].
  - eexists. split; [reflexivity|]. vm_compute. reflexivity.
Qed.

(** ** Package iterator *)

Section SliceFacts.
Context {T : Type} `{ZeroValue T}.

Lemma at_index_lookup (s : list T) (n : nat) (v : T) :
  s !! n = Some v -> at_index s (Z.of_nat n) = Return v.
Proof.
  intros Hv. unfold at_index.
  destruct (Z.ltb_spec (Z.of_nat n) 0) as [?|_]; [lia|].
  by rewrite Nat2Z.id, Hv.
Qed.

Lemma Slice_Next_present (values : list T) (n : nat) (v : T) :
  values !! n = Some v ->
  iterator.Slice_Next {| iterator.Values := values; iterator.index := Z.of_nat n |}
  = Return (optional.Some v,
            {| iterator.Values := values; iterator.index := Z.of_nat (S n) |}).
Proof.
  intros Hv. unfold iterator.Slice_Next; simpl.
  pose proof (lookup_lt_Some _ _ _ Hv) as Hlt. unfold len.
  destruct (Z.gtb_spec (Z.of_nat (length values)) (Z.of_nat n)) as [_|?]; [|lia].
  replace (Z.of_nat n + 1 - 1) with (Z.of_nat n) by lia.
  rewrite (at_index_lookup _ _ _ Hv). simpl.
  by replace (Z.of_nat n + 1) with (Z.of_nat (S n)) by lia.
Qed.

Lemma Slice_Next_exhausted (values : list T) (n : nat) :
  (length values <= n)%nat ->
  iterator.Slice_Next {| iterator.Values := values; iterator.index := Z.of_nat n |}
  = Return (optional.None,
            {| iterator.Values := values; iterator.index := Z.of_nat n |}).
Proof.
  intros Hle. unfold iterator.Slice_Next; simpl. unfold len.
  destruct (Z.gtb_spec (Z.of_nat (length values)) (Z.of_nat n)) as [?|_]; [lia|].
  reflexivity.
Qed.

End SliceFacts.

(** ** Package functional, version 2 *)

Section ForEachFacts.
Context {T : Type} `{ZeroValue T}.

(** The callback of [Collect]. *)
Local Abbreviation collecting :=
  (fun (slice : list T) (t : T) => Return (slice ++ [t], false)).

Lemma ForEach_loop_collecting_from (fuel : nat) (iter : iterator.Iterator T)
  (acc : list T) :
  functional.ForEach_loop fuel iter collecting acc
  = '(xs, it) ← functional.ForEach_loop fuel iter collecting [];
    Return (acc ++ xs, it).
Proof.
  revert iter acc. induction fuel as [|fuel IH]; intros iter acc; simpl; [done|].
  destruct (iterator.Next iter) as [[o it]| | |]; simpl; try done.
  destruct (optional.Option_IsSome o); simpl.
  - destruct (optional.Option_Expect o) as [t| | |]; simpl; try done.
    rewrite (IH it (acc ++ [t])), (IH it [t]).
    destruct (functional.ForEach_loop fuel it collecting []) as [[xs it']| | |];
      simpl; try done.
    by rewrite <- app_assoc.
  - by rewrite app_nil_r.
Qed.

(** A callback that never stops and never fails folds its update over the
    elements that [Collect] would gather. *)
Lemma ForEach_loop_fold {A : Type} (fn : A -> T -> Outcome (A * bool))
  (g : A -> T -> A) (fuel : nat) (iter : iterator.Iterator T) (a : A) :
  (forall a t, fn a t = Return (g a t, false)) ->
  functional.ForEach_loop fuel iter fn a
  = '(xs, it) ← functional.ForEach_loop fuel iter collecting [];
    Return (fold_left g xs a, it).
Proof.
  intros Hfn. revert iter a.
  induction fuel as [|fuel IH]; intros iter a; simpl; [done|].
  destruct (iterator.Next iter) as [[o it]| | |]; simpl; try done.
  destruct (optional.Option_IsSome o); simpl; [|done].
  destruct (optional.Option_Expect o) as [t| | |]; simpl; try done.
  rewrite Hfn; simpl. rewrite IH, (ForEach_loop_collecting_from fuel it [t]).
  by destruct (functional.ForEach_loop fuel it collecting [])
    as [[xs it']| | |].
Qed.

Lemma ForEach_fold {A : Type} (fn : A -> T -> Outcome (A * bool))
  (g : A -> T -> A) (fuel : nat) (iter : iterator.Iterator T) (a : A) :
  (forall a t, fn a t = Return (g a t, false)) ->
  functional.ForEach fuel iter fn a
  = '(xs, it) ← functional.Collect fuel iter; Return (fold_left g xs a, it).
Proof.
  intros Hfn. unfold functional.Collect, functional.ForEach.
  destruct iter; try apply (ForEach_loop_fold fn g _ _ _ Hfn). reflexivity.
Qed.

(** On a bounded-sequence iterator the loop of [Collect] ends as soon as the
    fuel exceeds the number of remaining elements. *)
Lemma ForEach_loop_Slice (values : list T) (fuel n : nat) :
  (n <= length values)%nat -> (length values - n < fuel)%nat ->
  functional.ForEach_loop fuel
    (iterator.PSlice {| iterator.Values := values; iterator.index := Z.of_nat n |})
    collecting []
  = Return (drop n values,
            iterator.PSlice {| iterator.Values := values;
                               iterator.index := len values |}).
Proof.
  revert n. induction fuel as [|fuel IH]; intros n Hn Hfuel; [lia|].
  cbn [functional.ForEach_loop iterator.Next].
  destruct (decide (n = length values)) as [->|Hne].
  - rewrite Slice_Next_exhausted by lia. simpl. by rewrite drop_all.
  - destruct (lookup_lt_is_Some_2 values n) as [v Hv]; [lia|].
    rewrite (Slice_Next_present _ _ _ Hv). simpl.
    rewrite (ForEach_loop_collecting_from fuel _ [v]), IH by lia. simpl.
    by rewrite (drop_S _ _ _ Hv).
Qed.

Lemma Collect_Slice (values : list T) (fuel : nat) :
  (length values < fuel)%nat ->
  functional.Collect fuel (examples.iteratorOver values)
  = Return (values,
            iterator.PSlice {| iterator.Values := values;
                               iterator.index := len values |}).
Proof.
  intros Hfuel. unfold functional.Collect, examples.iteratorOver. simpl.
  apply (ForEach_loop_Slice values fuel 0); lia.
Qed.

End ForEachFacts.

(** C2: [Collect] over a fresh bounded-sequence iterator returns the
    sequence itself, the same elements in the same order, and leaves the
    cursor at the end; fuel above the length is enough for it to return. *)
Theorem Collect_round_trip {T : Type} `{ZeroValue T} (values : list T)
  (fuel : nat) :
  (length values < fuel)%nat ->
  functional.Collect fuel (examples.iteratorOver values)
  = Return (values,
            iterator.PSlice {| iterator.Values := values;
                               iterator.index := len values |}).
Proof. apply Collect_Slice. Qed.

Lemma Collect_round_trip_witness :
  (length [1; 2; 3] < 4)%nat /\
  functional.Collect 4 (examples.iteratorOver [1; 2; 3])
  = Return ([1; 2; 3],
            iterator.PSlice {| iterator.Values := [1; 2; 3];
                               iterator.index := 3 |}).
Proof. split; [simpl; lia|]. apply (Collect_round_trip [1; 2; 3] 4). simpl; lia. Defined.

Section EqualFacts.
Context {T : Type} `{ZeroValue T} `{comparable T}.
(** The operator [==] of the element type decides equality. *)
Hypothesis equal_spec : forall x y : T, equal x y = true <-> x = y.

Lemma Equal_loop_spec (a b : list T) (fuel n : nat) :
  length a = length b -> (n <= length a)%nat -> (length a - n < fuel)%nat ->
  exists r : bool,
    functional.Equal_loop fuel (Z.of_nat n) a b = Return r /\
    (r = true <-> drop n a = drop n b).
Proof.
  intros Hlen. revert n. induction fuel as [|fuel IH]; intros n Hn Hfuel; [lia|].
  cbn [functional.Equal_loop]. unfold len.
  destruct (Z.ltb_spec (Z.of_nat n) (Z.of_nat (length a))) as [Hlt|Hge].
  - destruct (lookup_lt_is_Some_2 a n) as [x Hx]; [lia|].
    destruct (lookup_lt_is_Some_2 b n) as [y Hy]; [lia|].
    rewrite (at_index_lookup _ _ _ Hx), (at_index_lookup _ _ _ Hy). simpl.
    rewrite (drop_S _ _ _ Hx), (drop_S _ _ _ Hy).
    destruct (equal x y) eqn:Exy; simpl.
    + apply equal_spec in Exy as ->.
      replace (Z.of_nat n + 1) with (Z.of_nat (S n)) by lia.
      destruct (IH (S n)) as (r & -> & Hr); [lia..|].
      exists r. split; [done|]. rewrite Hr.
      split; [by intros ->|by intros [= ->]].
    + exists false. split; [done|]. split; [done|].
      intros [= Hxy _]. apply equal_spec in Hxy. congruence.
  - exists true. split; [done|]. by rewrite !drop_ge by lia.
Qed.

Lemma getSizeHint_fresh (values : list T) :
  functional.getSizeHint (examples.iteratorOver values)
  = if len values >? 0 then len values else functional.defaultSize.
Proof.
  unfold functional.getSizeHint, examples.iteratorOver, iterator.Slice_Count.
  simpl. by rewrite Z.sub_0_r.
Qed.

(** On two fresh bounded-sequence iterators [Equal] decides the equality of
    the two sequences. *)
Lemma Equal_Slices (a b : list T) (fuel : nat) :
  (length a < fuel)%nat -> (length b < fuel)%nat ->
  exists r : bool,
    answer (functional.Equal fuel (examples.iteratorOver a)
              (examples.iteratorOver b)) = Return r /\
    (r = true <-> a = b).
Proof.
  intros Ha Hb. unfold functional.Equal. case_bool_decide as Hhint.
  - exists false. split; [done|]. split; [done|]. intros ->. by destruct Hhint.
  - rewrite !Collect_Slice by done. cbn -[functional.Equal_loop len].
    case_bool_decide as Hlen.
    + exists false. split; [done|]. split; [done|]. intros ->. by destruct Hlen.
    + assert (length a = length b) as Hl by (unfold len in Hlen; lia).
      destruct (Equal_loop_spec a b (S (length a)) 0 Hl) as (r & E & Hr);
        [lia..|].
      change (Z.of_nat 0) with 0 in E. rewrite E. by exists r.
Qed.

Lemma Equal_Slices_true (a b : list T) (fuel : nat) :
  (length a < fuel)%nat -> (length b < fuel)%nat ->
  answer (functional.Equal fuel (examples.iteratorOver a)
            (examples.iteratorOver b)) = Return true <-> a = b.
Proof.
  intros Ha Hb. destruct (Equal_Slices a b fuel Ha Hb) as (r & -> & Hr).
  rewrite <- Hr. split; [by intros [= ->]|by intros ->].
Qed.

Lemma list_eq_by_index (a b : list T) :
  a = b <-> length a = length b /\ forall i : nat, a !! i = b !! i.
Proof.
  split; [by intros ->|]. intros [_ Hi]. by apply list_eq.
Qed.

End EqualFacts.

Section EqualPointwise.
Context {T : Type} `{ZeroValue T} `{comparable T}.

(** The comparison loop of [Equal] answers whether [==] holds between the
    elements at every index from the starting one on. *)
Lemma Equal_loop_pointwise (a b : list T) (fuel n : nat) :
  length a = length b -> (n <= length a)%nat -> (length a - n < fuel)%nat ->
  exists r : bool,
    functional.Equal_loop fuel (Z.of_nat n) a b = Return r /\
    (r = true <->
     forall (i : nat) (x y : T),
       (n <= i)%nat -> a !! i = Some x -> b !! i = Some y -> equal x y = true).
Proof.
  intros Hlen. revert n. induction fuel as [|fuel IH]; intros n Hn Hfuel; [lia|].
  cbn [functional.Equal_loop]. unfold len.
  destruct (Z.ltb_spec (Z.of_nat n) (Z.of_nat (length a))) as [Hlt|Hge].
  - destruct (lookup_lt_is_Some_2 a n) as [x Hx]; [lia|].
    destruct (lookup_lt_is_Some_2 b n) as [y Hy]; [lia|].
    rewrite (at_index_lookup _ _ _ Hx), (at_index_lookup _ _ _ Hy). simpl.
    destruct (equal x y) eqn:Exy; simpl.
    + replace (Z.of_nat n + 1) with (Z.of_nat (S n)) by lia.
      destruct (IH (S n)) as (r & -> & Hr); [lia..|].
      exists r. split; [done|]. rewrite Hr. split.
      * intros Hall i x' y' Hi Hx' Hy'.
        destruct (decide (i = n)) as [->|Hne]; [congruence|].
        apply (Hall i); [lia|done..].
      * intros Hall i x' y' Hi. apply Hall. lia.
    + exists false. split; [done|]. split; [done|].
      intros Hall. rewrite (Hall n x y) in Exy; [done|lia|done..].
  - exists true. split; [done|]. split; [|done].
    intros _ i x y Hi Hx. apply lookup_lt_Some in Hx. lia.
Qed.

(** On two fresh bounded-sequence iterators [Equal] returns, and answers
    whether the sequences have the same length and [==] holds at every
    index. *)
Lemma Equal_Slices_pointwise (a b : list T) (fuel : nat) :
  (length a < fuel)%nat -> (length b < fuel)%nat ->
  exists r : bool,
    answer (functional.Equal fuel (examples.iteratorOver a)
              (examples.iteratorOver b)) = Return r /\
    (r = true <->
     length a = length b /\
     forall (i : nat) (x y : T),
       a !! i = Some x -> b !! i = Some y -> equal x y = true).
Proof.
  intros Ha Hb. unfold functional.Equal. case_bool_decide as Hhint.
  - exists false. split; [done|]. split; [done|]. intros [Hlen _].
    destruct Hhint. rewrite !getSizeHint_fresh. unfold len. by rewrite Hlen.
  - rewrite !Collect_Slice by done. cbn -[functional.Equal_loop len].
    case_bool_decide as Hlen.
    + exists false. split; [done|]. split; [done|]. intros [Hl _].
      destruct Hlen. unfold len. by rewrite Hl.
    + assert (length a = length b) as Hl by (unfold len in Hlen; lia).
      destruct (Equal_loop_pointwise a b (S (length a)) 0 Hl) as (r & E & Hr);
        [lia..|].
      change (Z.of_nat 0) with 0 in E. rewrite E. exists r. split; [done|].
      rewrite Hr. split.
      * intros Hall. split; [done|]. intros i x y. apply Hall. lia.
      * intros [_ Hall] i x y _. apply Hall.
Qed.

End EqualPointwise.

(** C3, as the code has it: on fresh bounded-sequence iterators over
    sequences of comparable elements, [Equal] returns, and returns true
    exactly when the two sequences have the same length and [==] holds
    between their elements at every index.  For an element type whose [==]
    decides equality this is structural equality: true exactly when the
    sequences have the same length and the same element at every index,
    hence reflexive, symmetric and transitive.  Over [1,2] and [2,1] it is
    false and over [2,1] and [2,1] it is true. *)
Theorem Equal_is_structural_equality {T : Type} `{ZeroValue T} `{comparable T}
  (S1 S2 S3 : list T) (fuel : nat) :
  (length S1 < fuel)%nat -> (length S2 < fuel)%nat -> (length S3 < fuel)%nat ->
  let Equal_over (a b : list T) :=
    answer (functional.Equal fuel (examples.iteratorOver a)
              (examples.iteratorOver b)) in
  (exists r : bool,
     Equal_over S1 S2 = Return r /\
     (r = true <->
      length S1 = length S2 /\
      forall (i : nat) (x y : T),
        S1 !! i = Some x -> S2 !! i = Some y -> equal x y = true)) /\
  ((forall x y : T, equal x y = true <-> x = y) ->
   (exists r : bool,
      Equal_over S1 S2 = Return r /\
      (r = true <->
       length S1 = length S2 /\ forall i : nat, S1 !! i = S2 !! i)) /\
   Equal_over S1 S1 = Return true /\
   Equal_over S1 S2 = Equal_over S2 S1 /\
   (Equal_over S1 S2 = Return true -> Equal_over S2 S3 = Return true ->
    Equal_over S1 S3 = Return true)) /\
  answer (functional.Equal 3 (examples.iteratorOver [1; 2])
            (examples.iteratorOver [2; 1])) = Return false /\
  answer (functional.Equal 3 (examples.iteratorOver [2; 1])
            (examples.iteratorOver [2; 1])) = Return true.
Proof.
  intros H1 H2 H3 Equal_over. subst Equal_over. cbv beta.
  split; [by apply Equal_Slices_pointwise|]. split; [|split; reflexivity].
  intros Heq. split; [|split; [|split]].
  - destruct (Equal_Slices Heq S1 S2 fuel H1 H2) as (r & E & Hr).
    exists r. split; [done|]. rewrite Hr. apply list_eq_by_index.
  - by apply Equal_Slices_true.
  - destruct (Equal_Slices Heq S1 S2 fuel H1 H2) as (r & -> & Hr).
    destruct (Equal_Slices Heq S2 S1 fuel H2 H1) as (r' & -> & Hr').
    f_equal. destruct r, r'; try done.
    + destruct Hr as [Hr _]. destruct Hr' as [_ Hr']. by rewrite Hr' by by rewrite Hr.
    + destruct Hr as [_ Hr]. destruct Hr' as [Hr' _]. by rewrite Hr by by rewrite Hr'.
  - rewrite !Equal_Slices_true by done. congruence.
Qed.

Lemma Equal_is_structural_equality_witness :
  (length ([4; 9; 13]%Z : list Z) < 4)%nat /\
  (length ([4; 9]%Z : list Z) < 4)%nat /\
  (length ([] : list Z) < 4)%nat /\
  (forall x y : Z, equal x y = true <-> x = y) /\
  answer (functional.Equal 4 (examples.iteratorOver [4; 9; 13])
            (examples.iteratorOver [4; 9; 13])) = Return true /\
  answer (functional.Equal 4 (examples.iteratorOver [4; 9; 13])
            (examples.iteratorOver [4; 9]))
  = answer (functional.Equal 4 (examples.iteratorOver [4; 9])
              (examples.iteratorOver [4; 9; 13])).
Proof.
  assert (forall x y : Z, equal x y = true <-> x = y) as Heq
    by (intros x y; apply Z.eqb_eq).
  assert (length ([4; 9; 13]%Z : list Z) < 4)%nat as H1 by (simpl; lia).
  assert (length ([4; 9]%Z : list Z) < 4)%nat as H2 by (simpl; lia).
  assert (length ([] : list Z) < 4)%nat as H3 by (simpl; lia).
  split; [exact H1|]. split; [exact H2|]. split; [exact H3|].
  split; [exact Heq|].
  destruct (Equal_is_structural_equality [4; 9; 13] [4; 9] [] 4 H1 H2 H3)
    as (_ & Hdecides & _).
  destruct (Hdecides Heq) as (_ & Hrefl & Hsym & _).
  split; [exact Hrefl|exact Hsym].
Defined.

(** C3, as the specification has it, fails on [float64], a comparable
    type: the sequence holding one NaN has the same length and the same
    element at every index as itself, and yet [Equal] over two fresh
    iterators on it returns false, since NaN [!=] NaN holds; so [Equal] is
    not reflexive there. *)
Lemma Equal_not_reflexive_on_NaN :
  let S := [NaN] in
  (length S = length S /\ forall i : nat, S !! i = S !! i) /\
  equal NaN NaN = false /\
  functional.Equal 2 (examples.iteratorOver S) (examples.iteratorOver S)
  = Return (false,
            (iterator.PSlice {| iterator.Values := S; iterator.index := 1 |},
             iterator.PSlice {| iterator.Values := S; iterator.index := 1 |})) /\
  answer (functional.Equal 2 (examples.iteratorOver S)
            (examples.iteratorOver S)) <> Return true /\
  ~ (forall (S1 S2 : list float64) (r : bool),
       answer (functional.Equal 2 (examples.iteratorOver S1)
                 (examples.iteratorOver S2)) = Return r ->
       (r = true <->
        length S1 = length S2 /\ forall i : nat, S1 !! i = S2 !! i)).
Proof.
  intros S.
  assert (functional.Equal 2 (examples.iteratorOver S) (examples.iteratorOver S)
          = Return (false,
                    (iterator.PSlice {| iterator.Values := S;
                                        iterator.index := 1 |},
                     iterator.PSlice {| iterator.Values := S;
                                        iterator.index := 1 |}))) as Hnan
    by (vm_compute; reflexivity).
  split; [by split|]. split; [reflexivity|]. split; [exact Hnan|].
  split; [by rewrite Hnan|].
  intros Hclaim.
  destruct (Hclaim S S false) as [_ Htrue]; [by rewrite Hnan|].
  by discriminate Htrue.
Qed.

(** C4: a function-backed iterator and a bounded-sequence iterator that
    yield the same two elements are reported unequal by [Equal]: the first
    has no [Count], so its size hint is the default 16, the second reports
    2, and the comparison of the hints answers false before any element is
    read. *)
Theorem Equal_false_on_default_hint :
  exists (a b : iterator.Iterator Z) (xs : list Z) (a' b' : iterator.Iterator Z),
    a = iterator.IFunc (examples.funcIteratorOf [1; 2]) /\
    b = examples.iteratorOver [1; 2] /\
    functional.Collect 3 a = Return (xs, a') /\
    functional.Collect 3 b = Return (xs, b') /\
    functional.getSizeHint a = functional.defaultSize /\
    functional.getSizeHint b = len xs /\
    len xs <> functional.defaultSize /\
    functional.Equal 3 a b = Return (false, (a, b)).
Proof.
  eexists _, _, [1; 2], _, _.
  split; [reflexivity|]. split; [reflexivity|].
  split; [reflexivity|]. split; [reflexivity|].
  split; [reflexivity|]. split; [reflexivity|].
  split; [discriminate|reflexivity].
Qed.

Section MapReduceFacts.
Context {T To : Type} `{ZeroValue T}.

Lemma fold_left_append_mapped (f : T -> To) (xs : list T) (values : list To)
  (i : Z) :
  fold_left
    (fun (mapped : iterator.Slice To) (x : T) =>
       {| iterator.Values := iterator.Values mapped ++ [f x];
          iterator.index := iterator.index mapped |})
    xs {| iterator.Values := values; iterator.index := i |}
  = {| iterator.Values := values ++ (f <$> xs); iterator.index := i |}.
Proof.
  revert values. induction xs as [|x xs IH]; intros values; simpl.
  - by rewrite app_nil_r.
  - rewrite IH. by rewrite <- app_assoc.
Qed.

(** [Map] gathers the elements as [Collect] does and applies [f] to each. *)
Lemma Map_via_Collect (f : T -> To) (fuel : nat) (iter : iterator.Iterator T) :
  functional.Map fuel iter (Some f)
  = '(xs, it) ← functional.Collect fuel iter;
    Return (examples.iteratorOver (f <$> xs), it).
Proof.
  unfold functional.Map.
  rewrite (ForEach_fold _
             (fun (mapped : iterator.Slice To) (x : T) =>
                {| iterator.Values := iterator.Values mapped ++ [f x];
                   iterator.index := iterator.index mapped |}))
    by reflexivity.
  destruct (functional.Collect fuel iter) as [[xs it]| | |]; simpl; try done.
  unfold functional.allocate. by rewrite fold_left_append_mapped.
Qed.

(** [Reduce] gathers the elements as [Collect] does and folds [fn] over
    them from the left, starting from the zero value. *)
Lemma Reduce_via_Collect `{ZeroValue To} (fn : To -> T -> To) (fuel : nat)
  (iter : iterator.Iterator T) :
  functional.Reduce fuel iter (Some fn)
  = '(xs, it) ← functional.Collect fuel iter;
    Return (fold_left fn xs zero, it).
Proof.
  unfold functional.Reduce. by rewrite (ForEach_fold _ fn) by reflexivity.
Qed.

Lemma Reduce_loop_fold_left (fn : To -> T -> To) (xs : list T) (accum : To) :
  functions.Reduce_loop xs fn accum = fold_left fn xs accum.
Proof. revert accum. induction xs as [|x xs IH]; intros accum; simpl; auto. Qed.

End MapReduceFacts.

(** C6: [Map] preserves length and order.  Whenever the elements of [iter]
    can be collected, as the sequence [xs], [Map(iter, f)] returns an
    iterator, having drained [iter] in the same way; the sequence collected
    from that iterator has the length of [xs] and holds, at every index,
    [f] of the element of [xs] at that index.  On a fresh bounded-sequence
    iterator [Map] does return, with the iterator over the mapped values. *)
Theorem Map_preserves_length_and_order {T To : Type} `{ZeroValue T}
  `{ZeroValue To} (iter iter' : iterator.Iterator T) (f : T -> To)
  (fuel : nat) (xs : list T) :
  functional.Collect fuel iter = Return (xs, iter') ->
  (exists (mapped rest : iterator.Iterator To) (ys : list To),
     functional.Map fuel iter (Some f) = Return (mapped, iter') /\
     functional.Collect (S (length xs)) mapped = Return (ys, rest) /\
     length ys = length xs /\
     forall i : nat, ys !! i = f <$> xs !! i) /\
  (forall (values : list T) (enough : nat),
     (length values < enough)%nat ->
     functional.Map enough (examples.iteratorOver values) (Some f)
     = Return (examples.iteratorOver (f <$> values),
               iterator.PSlice {| iterator.Values := values;
                                  iterator.index := len values |})).
Proof.
  intros Hxs. split.
  - rewrite Map_via_Collect, Hxs. simpl.
    eexists _, _, (f <$> xs). split; [reflexivity|]. split.
    + apply Collect_Slice. rewrite length_fmap. lia.
    + split; [apply length_fmap|]. intros i. apply list_lookup_fmap.
  - intros values enough Henough.
    by rewrite Map_via_Collect, Collect_Slice by done.
Qed.

Lemma Map_preserves_length_and_order_witness :
  functional.Collect 4 (examples.iteratorOver [0; 1; 2])
  = Return ([0; 1; 2],
            iterator.PSlice {| iterator.Values := [0; 1; 2];
                               iterator.index := 3 |}) /\
  exists (mapped rest : iterator.Iterator Z) (ys : list Z),
    functional.Map 4 (examples.iteratorOver [0; 1; 2]) (Some examples.square)
    = Return (mapped,
              iterator.PSlice {| iterator.Values := [0; 1; 2];
                                 iterator.index := 3 |}) /\
    functional.Collect 4 mapped = Return (ys, rest) /\
    length ys = length [0; 1; 2] /\
    forall i : nat, ys !! i = examples.square <$> [0; 1; 2] !! i.
Proof.
  split; [reflexivity|].
  apply (Map_preserves_length_and_order (examples.iteratorOver [0; 1; 2])
           (iterator.PSlice {| iterator.Values := [0; 1; 2];
                               iterator.index := 3 |})
           examples.square 4 [0; 1; 2]).
  reflexivity.
Defined.

(** C7: [Reduce] is a left fold from the zero value of the result type over
    the elements in iteration order: it returns whenever the elements can be
    collected, with [fn] folded from the left over them; over a
    bounded-sequence iterator it returns the fold over the sequence; over an
    empty sequence or the nil iterator it returns the zero value; the slice
    version does the same; and over [0,1,2,3,4,5] with addition both
    versions yield 15. *)
Theorem Reduce_is_left_fold {T To : Type} `{ZeroValue T} `{ZeroValue To}
  (fn : To -> T -> To) (iter : iterator.Iterator T) (values : list T)
  (fuel : nat) :
  (length values < fuel)%nat ->
  functional.Reduce fuel iter (Some fn)
  = ('(xs, it) ← functional.Collect fuel iter;
     Return (fold_left fn xs zero, it)) /\
  functional.Reduce fuel (examples.iteratorOver values) (Some fn)
  = Return (fold_left fn values zero,
            iterator.PSlice {| iterator.Values := values;
                               iterator.index := len values |}) /\
  functional.Reduce fuel (examples.iteratorOver []) (Some fn)
  = Return (zero, examples.iteratorOver []) /\
  functional.Reduce fuel iterator.nil_Iterator (Some fn)
  = Return (zero, iterator.nil_Iterator) /\
  functions.Reduce values (Some fn) = Return (fold_left fn values zero) /\
  functions.Reduce [] (Some fn) = Return (zero : To) /\
  functional.Reduce 7 (examples.iteratorOver [0; 1; 2; 3; 4; 5])
    (Some examples.sum)
  = Return (15, iterator.PSlice {| iterator.Values := [0; 1; 2; 3; 4; 5];
                                   iterator.index := 6 |}) /\
  functions.Reduce [0; 1; 2; 3; 4; 5] (Some examples.sum) = Return 15.
Proof.
  intros Hfuel.
  split; [apply Reduce_via_Collect|].
  split; [by rewrite Reduce_via_Collect, Collect_Slice by done|].
  split; [rewrite Reduce_via_Collect, Collect_Slice by (simpl; lia); done|].
  split; [reflexivity|].
  split; [unfold functions.Reduce; by rewrite Reduce_loop_fold_left|].
  split; [reflexivity|].
  split; vm_compute; reflexivity.
Qed.

Lemma Reduce_is_left_fold_witness :
  (length [0; 1; 2] < 4)%nat /\
  functional.Reduce 4 (examples.iteratorOver [0; 1; 2])
    (Some (fun accum cur : Z => int_add accum (int_mul cur cur)))
  = Return (5, iterator.PSlice {| iterator.Values := [0; 1; 2];
                                  iterator.index := 3 |}).
Proof.
  split; [simpl; lia|].
  destruct (Reduce_is_left_fold
              (fun accum cur : Z => int_add accum (int_mul cur cur))
              iterator.nil_Iterator [0; 1; 2] 4) as (_ & E & _); [simpl; lia|].
  rewrite E. vm_compute. reflexivity.
Defined.

Section SortFacts.
Context {T : Type} `{ZeroValue T} `{functional.Comparable T}.
Variable sort_IsSorted : (T -> T -> bool) -> list T -> bool.
Variables sort_Sort sort_Stable : (T -> T -> bool) -> list T -> list T.

(** On a fresh bounded-sequence iterator [Sort] returns as soon as the fuel
    exceeds the length. *)
Lemma Sort_Slice_returns (values : list T) (fuel : nat) (stable : bool) :
  (length values < fuel)%nat ->
  exists sorted_values : list T,
    functional.Sort sort_IsSorted sort_Sort sort_Stable fuel
      (examples.iteratorOver values) stable
    = Return (iterator.sorted (examples.iteratorOver sorted_values),
              iterator.PSlice {| iterator.Values := values;
                                 iterator.index := len values |}).
Proof.
  intros Hfuel. unfold functional.Sort.
  change (match examples.iteratorOver values with
          | iterator.sorted _ => ?a | _ => ?b end) with b.
  rewrite Collect_Slice by done. simpl. eexists. reflexivity.
Qed.

Lemma Sort_returns_tagged (fuel : nat) (iter r iter' : iterator.Iterator T)
  (stable : bool) :
  functional.Sort sort_IsSorted sort_Sort sort_Stable fuel iter stable
  = Return (r, iter') ->
  exists embedded, r = iterator.sorted embedded.
Proof.
  unfold functional.Sort. intros Hsort.
  destruct iter as [|s|c|f|it];
    try (destruct (functional.Collect fuel _) as [[values it']| | |];
         simpl in Hsort; try discriminate;
         injection Hsort as <- _; by eexists).
  injection Hsort as <- _. by eexists.
Qed.

End SortFacts.

(** C5: [Sort] is idempotent through its tag.  Whatever [Sort(iter, s)]
    returns is a [sorted] value, and [Sort] applied to that value, with any
    flag, returns the very same value and leaves it as it is: the call takes
    the short-circuit, needs no pass of the collecting loop (it returns even
    without fuel) and does not depend on the sorting functions.  On a fresh
    bounded-sequence iterator the first [Sort] does return. *)
Theorem Sort_idempotent_by_tag {T : Type} `{ZeroValue T}
  `{functional.Comparable T}
  (sort_IsSorted sort_IsSorted' : (T -> T -> bool) -> list T -> bool)
  (sort_Sort sort_Stable sort_Sort' sort_Stable'
     : (T -> T -> bool) -> list T -> list T)
  (fuel : nat) (iter r iter' : iterator.Iterator T) (s : bool) :
  functional.Sort sort_IsSorted sort_Sort sort_Stable fuel iter s
  = Return (r, iter') ->
  (exists embedded, r = iterator.sorted embedded) /\
  (forall (fuel' : nat) (s' : bool),
     functional.Sort sort_IsSorted' sort_Sort' sort_Stable' fuel' r s'
     = Return (r, r)) /\
  (forall (values : list T) (enough : nat) (stable : bool),
     (length values < enough)%nat ->
     exists sorted_values : list T,
       functional.Sort sort_IsSorted sort_Sort sort_Stable enough
         (examples.iteratorOver values) stable
       = Return (iterator.sorted (examples.iteratorOver sorted_values),
                 iterator.PSlice {| iterator.Values := values;
                                    iterator.index := len values |})).
Proof.
  intros Hsort.
  destruct (Sort_returns_tagged _ _ _ _ _ _ _ _ Hsort) as [embedded ->].
  split; [by eexists|]. split; [reflexivity|].
  intros values enough stable. apply Sort_Slice_returns.
Qed.

Lemma Sort_idempotent_by_tag_witness :
  let once := iterator.sorted (examples.iteratorOver [0; 9; 14; 41; 102]) in
  functional.Sort examples.IsSorted examples.insertion_sort
    examples.insertion_sort 6 (examples.iteratorOver [9; 102; 41; 14; 0]) false
  = Return (once, iterator.PSlice
                    {| iterator.Values := [9; 102; 41; 14; 0];
                       iterator.index := 5 |}) /\
  functional.Sort examples.IsSorted examples.insertion_sort
    examples.insertion_sort 0 once true
  = Return (once, once).
Proof.
  intros once.
  assert (functional.Sort examples.IsSorted examples.insertion_sort
            examples.insertion_sort 6
            (examples.iteratorOver [9; 102; 41; 14; 0]) false
          = Return (once, iterator.PSlice
                            {| iterator.Values := [9; 102; 41; 14; 0];
                               iterator.index := 5 |})) as Hfirst
    by (vm_compute; reflexivity).
  split; [exact Hfirst|].
  apply (Sort_idempotent_by_tag examples.IsSorted examples.IsSorted
           examples.insertion_sort examples.insertion_sort
           examples.insertion_sort examples.insertion_sort
           _ _ _ _ _ Hfirst).
Defined.

(** ** [WaitForNext] under a cancelled context *)

Section WaitFacts.
Context {T : Type} `{ZeroValue T}.

Lemma Slice_WaitForNext_is_Next (ctx : context.Context) (s : iterator.Slice T) :
  iterator.Slice_WaitForNext ctx s = iterator.Slice_Next s.
Proof. reflexivity. Qed.

Lemma Chan_WaitForNext_done (ctx : context.Context) (c : iterator.Chan T) :
  context.Done_closed ctx = true ->
  iterator.Chan_WaitForNext iterator.DoneCase ctx c = Return (optional.None, c).
Proof.
  intros Hdone. unfold iterator.Chan_WaitForNext. rewrite Hdone.
  by destruct (iterator.can_receive c).
Qed.

Lemma Chan_WaitForNext_receive (ctx : context.Context) (v : T) (q : list T)
  (closed : bool) :
  iterator.Chan_WaitForNext iterator.RecvCase ctx (iterator.chan (v :: q) closed)
  = Return (optional.Some v, iterator.chan q closed).
Proof.
  unfold iterator.Chan_WaitForNext. simpl.
  by destruct (context.Done_closed ctx).
Qed.

End WaitFacts.

(** C1, as the code has it.  Under an already-cancelled context and on a
    non-empty source:
    - the [WaitForNext] of the bounded-sequence iterator ignores the context
      and acts as [Next]: it returns the element under the cursor and moves
      the cursor by one, and so does the package-level [WaitForNext], which
      calls that method;
    - the [WaitForNext] of the channel iterator returns None and leaves the
      channel as it is when its select takes the cancellation case, and
      returns the head of the queue and removes it when the select takes the
      receive case;
    - the generic [waitForNext] returns None when its select takes the
      cancellation case: if the select polled before the goroutine ran, the
      source is untouched at the return and the goroutine has still to call
      [Next()]; if the goroutine ran first, the element it took is dropped;
      when the select takes the receive case the element is returned. *)
Theorem WaitForNext_under_cancelled_context {T : Type} `{ZeroValue T}
  (ctx : context.Context) (sched : iterator.Schedule)
  (pick : iterator.SelectCase)
  (values : list T) (n : nat) (v : T) (q : list T) (closed : bool)
  (iter iter' : iterator.Iterator T) :
  context.Done_closed ctx = true ->
  values !! n = Some v ->
  iterator.Next iter = Return (optional.Some v, iter') ->
  let s := {| iterator.Values := values; iterator.index := Z.of_nat n |} in
  let s' := {| iterator.Values := values; iterator.index := Z.of_nat n + 1 |} in
  let c := iterator.chan (v :: q) closed in
  (iterator.Slice_WaitForNext ctx s = Return (optional.Some v, s') /\
   iterator.WaitForNext sched pick ctx (iterator.PSlice s)
   = Return {| iterator.result := optional.Some v;
               iterator.source := iterator.PSlice s';
               iterator.producer_pending := false |}) /\
  (iterator.Chan_WaitForNext iterator.DoneCase ctx c
   = Return (optional.None, c) /\
   iterator.Chan_WaitForNext iterator.RecvCase ctx c
   = Return (optional.Some v, iterator.chan q closed) /\
   iterator.WaitForNext sched iterator.DoneCase ctx (iterator.IChan c)
   = Return {| iterator.result := optional.None;
               iterator.source := iterator.IChan c;
               iterator.producer_pending := false |}) /\
  (iterator.waitForNext iterator.SelectFirst ctx iter
   = Return {| iterator.result := optional.None;
               iterator.source := iter;
               iterator.producer_pending := true |} /\
   iterator.waitForNext (iterator.ProducerFirst iterator.DoneCase) ctx iter
   = Return {| iterator.result := optional.None;
               iterator.source := iter';
               iterator.producer_pending := false |} /\
   iterator.waitForNext (iterator.ProducerFirst iterator.RecvCase) ctx iter
   = Return {| iterator.result := optional.Some v;
               iterator.source := iter';
               iterator.producer_pending := false |}).
Proof.
  intros Hdone Hv Hnext s s' c. split; [|split].
  - assert (iterator.Slice_WaitForNext ctx s = Return (optional.Some v, s'))
      as Hs.
    { rewrite Slice_WaitForNext_is_Next. subst s s'.
      rewrite (Slice_Next_present _ _ _ Hv). do 3 f_equal. lia. }
    split; [exact Hs|]. unfold iterator.WaitForNext. fold s. by rewrite Hs.
  - split; [by apply Chan_WaitForNext_done|].
    split; [apply Chan_WaitForNext_receive|].
    unfold iterator.WaitForNext. by rewrite Chan_WaitForNext_done.
  - unfold iterator.waitForNext. rewrite Hdone, Hnext. by repeat split.
Qed.

Lemma WaitForNext_under_cancelled_context_witness :
  context.Done_closed context.canceled = true /\
  [4; 9; 13] !! 0%nat = Some 4 /\
  iterator.WaitForNext iterator.SelectFirst iterator.DoneCase context.canceled
    (examples.iteratorOver [4; 9; 13])
  = Return {| iterator.result := optional.Some 4;
              iterator.source :=
                iterator.PSlice {| iterator.Values := [4; 9; 13];
                                   iterator.index := 1 |};
              iterator.producer_pending := false |} /\
  iterator.waitForNext (iterator.ProducerFirst iterator.DoneCase)
    context.canceled (iterator.IFunc (examples.funcIteratorOf [4; 9; 13]))
  = Return {| iterator.result := optional.None;
              iterator.source :=
                iterator.IFunc (examples.funcIteratorOf [9; 13]);
              iterator.producer_pending := false |}.
Proof.
  destruct (WaitForNext_under_cancelled_context context.canceled
              iterator.SelectFirst iterator.DoneCase [4; 9; 13] 0 4 [9; 13]
              false (iterator.IFunc (examples.funcIteratorOf [4; 9; 13]))
              (iterator.IFunc (examples.funcIteratorOf [9; 13]))
              eq_refl eq_refl eq_refl)
    as ((_ & Hslice) & _ & (_ & Hdropped & _)).
  split; [reflexivity|]. split; [reflexivity|].
  split; [exact Hslice|exact Hdropped].
Defined.

(** C1, as the specification has it, fails on the bounded-sequence
    iterator: with the cancelled context and the three values of
    iterator_test.go, [WaitForNext] returns the first value, not None, and
    the cursor has moved. *)
Lemma WaitForNext_cancelled_Slice_consumes :
  let s := {| iterator.Values := [4; 9; 13]; iterator.index := 0 |} in
  let s' := {| iterator.Values := [4; 9; 13]; iterator.index := 1 |} in
  context.Done_closed context.canceled = true /\
  iterator.Slice_Count s = 3 /\
  iterator.Slice_WaitForNext context.canceled s
  = Return (optional.Some 4, s') /\
  iterator.WaitForNext iterator.SelectFirst iterator.DoneCase
    context.canceled (iterator.PSlice s)
  = Return {| iterator.result := optional.Some 4;
              iterator.source := iterator.PSlice s';
              iterator.producer_pending := false |} /\
  iterator.Slice_WaitForNext context.canceled s
  <> Return (optional.None, s) /\
  ~ (forall (ctx : context.Context) (it : iterator.Slice Z),
       context.Done_closed ctx = true -> iterator.Slice_Count it > 0 ->
       iterator.Slice_WaitForNext ctx it = Return (optional.None, it)).
Proof.
  intros s s'. repeat split; try discriminate.
  intros Hclaim. specialize (Hclaim context.canceled s eq_refl eq_refl).
  discriminate Hclaim.
Qed.

(** * Further properties of the code *)

(** ** Package optional *)

(** X1: on every option, [String()] returns and never panics, [None] for
    an absent option and the formatted value for a present one; [Expect()]
    returns the value exactly on present options and panics on the absent
    ones. *)
Theorem Option_String_never_panics {T : Type} (Sprintf_v : T -> string)
  (o : optional.Option T) :
  optional.Option_String Sprintf_v o
  = Return (if optional.Option_IsSome o
            then Sprintf_v (optional.Option_Get o) else "None"%string) /\
  (forall v : T,
     optional.Option_Expect o = Return v <->
     optional.Option_IsSome o = true /\ optional.Option_Get o = v) /\
  (optional.Option_Expect o = Panic "optional: Expect() called on None" <->
   optional.Option_IsSome o = false).
Proof.
  unfold optional.Option_String, optional.Option_Expect, optional.Option_Get.
  destruct (optional.Option_IsSome o); simpl.
  - split; [done|]. split; [|split; intros; discriminate].
    intros v. split; [by intros [= ->]|by intros [_ ->]].
  - split; [done|]. split; [|done].
    intros v. split; [discriminate|by intros [? _]].
Qed.

(** X2: what the two constructors of [Result] build.  [Ok(v)] is ok, holds
    no error, and [Get], [Expect] and [String] give [v]; [Err(e)] is not ok,
    gives back [e], [Get] gives the zero value and [Expect] panics.  So an
    ok result made by a constructor never carries an error. *)
Theorem Result_constructors {T : Type} `{ZeroValue T} (Sprintf_v : T -> string)
  (v : T) (e : optional.error) :
  (optional.Result_Ok (optional.Ok v) = true /\
   optional.Result_Err (optional.Ok v) = optional.nil /\
   optional.Result_Get (optional.Ok v) = v /\
   optional.Result_Expect (optional.Ok v) = Return v /\
   optional.Result_String Sprintf_v (optional.Ok v) = Return (Sprintf_v v)) /\
  (optional.Result_Ok (optional.Err (T := T) e) = false /\
   optional.Result_Err (optional.Err (T := T) e) = e /\
   optional.Result_Get (optional.Err e) = (zero : T) /\
   optional.Result_Expect (optional.Err (T := T) e)
   = Panic "optional: Expect() called on error result" /\
   optional.Result_String Sprintf_v (optional.Err e) = optional.error_Error e) /\
  (forall r : optional.Result T,
     r = optional.Ok v \/ r = optional.Err e ->
     optional.Result_Ok r = true -> optional.Result_Err r = optional.nil).
Proof.
  split; [by repeat split|]. split; [by repeat split|].
  intros r [->| ->]; [done|discriminate].
Qed.

(** X3: [Err] with the nil error builds the zero value of [Result], so
    [String()] panics on it, whereas on [Err] of an error object it returns
    the text of the error. *)
Theorem Err_nil_is_zero_Result {T : Type} `{ZeroValue T}
  (Sprintf_v : T -> string) (message : string) :
  optional.Err optional.nil = (zero : optional.Result T) /\
  optional.Result_String Sprintf_v (optional.Err optional.nil)
  = Panic nil_dereference /\
  optional.Result_String Sprintf_v
    (optional.Err (Some (optional.errors_New message)))
  = Return message.
Proof. by repeat split. Qed.

(** ** Package iterator *)

(** X4: one step of a bounded-sequence iterator whose cursor lies within
    its values.  While elements remain, [Next()] returns the element under
    the cursor, [Count()] drops by one and the cursor stays within the
    values; once none remains, [Next()] returns None and leaves the iterator
    as it is, so it stays exhausted. *)
Theorem Slice_Next_step {T : Type} `{ZeroValue T} (s : iterator.Slice T) :
  0 <= iterator.index s <= len (iterator.Values s) ->
  (iterator.Slice_Count s > 0 ->
   exists (v : T) (s' : iterator.Slice T),
     iterator.Values s !! Z.to_nat (iterator.index s) = Some v /\
     iterator.Slice_Next s = Return (optional.Some v, s') /\
     iterator.Values s' = iterator.Values s /\
     iterator.Slice_Count s' = iterator.Slice_Count s - 1 /\
     0 <= iterator.index s' <= len (iterator.Values s')) /\
  (iterator.Slice_Count s <= 0 ->
   iterator.Slice_Count s = 0 /\
   iterator.Slice_Next s = Return (optional.None, s)).
Proof.
  destruct s as [values i]. unfold iterator.Slice_Count, len. simpl.
  intros Hi. split; intros Hcount.
  - destruct (lookup_lt_is_Some_2 values (Z.to_nat i)) as [v Hv]; [lia|].
    exists v, {| iterator.Values := values; iterator.index := i + 1 |}.
    split; [done|]. split.
    + pose proof (Slice_Next_present values (Z.to_nat i) v Hv) as Hnext.
      rewrite Z2Nat.id in Hnext by lia. rewrite Hnext. do 3 f_equal. lia.
    + simpl. unfold len. repeat split; lia.
  - split; [lia|].
    pose proof (Slice_Next_exhausted values (Z.to_nat i)) as Hnext.
    rewrite Z2Nat.id in Hnext by lia. apply Hnext. lia.
Qed.

Lemma Slice_Next_step_witness :
  let s := {| iterator.Values := [4; 9; 13]; iterator.index := 1 |} in
  0 <= iterator.index s <= len (iterator.Values s) /\
  iterator.Slice_Count s > 0 /\
  exists (v : Z) (s' : iterator.Slice Z),
    iterator.Values s !! Z.to_nat (iterator.index s) = Some v /\
    iterator.Slice_Next s = Return (optional.Some v, s') /\
    iterator.Values s' = iterator.Values s /\
    iterator.Slice_Count s' = iterator.Slice_Count s - 1 /\
    0 <= iterator.index s' <= len (iterator.Values s').
Proof.
  intros s.
  assert (0 <= iterator.index s <= len (iterator.Values s)) as Hs
    by (by vm_compute).
  split; [exact Hs|]. split; [reflexivity|].
  apply (Slice_Next_step s Hs). reflexivity.
Defined.

Section ChanFacts.
Context {T : Type} `{ZeroValue T}.

Lemma ForEach_loop_closed_Chan (queue : list T) (fuel : nat) :
  (length queue < fuel)%nat ->
  functional.ForEach_loop fuel (iterator.IChan (iterator.chan queue true))
    (fun (slice : list T) (t : T) => Return (slice ++ [t], false)) []
  = Return (queue, iterator.IChan (iterator.chan [] true)).
Proof.
  revert fuel. induction queue as [|v queue IH]; intros [|fuel] Hfuel;
    simpl in Hfuel; try lia; [reflexivity|].
  cbn [functional.ForEach_loop iterator.Next iterator.Chan_Next
         iterator.receive mbind Outcome_bind optional.Option_IsSome
         optional.Some optional.some optional.Option_Expect negb
         optional.value app].
  rewrite (ForEach_loop_collecting_from fuel _ [v]), IH by lia. reflexivity.
Qed.

Lemma ForEach_loop_open_Chan (queue : list T) (fuel : nat) (acc : list T) :
  functional.ForEach_loop fuel (iterator.IChan (iterator.chan queue false))
    (fun (slice : list T) (t : T) => Return (slice ++ [t], false)) acc
  = if (length queue <? fuel)%nat then Blocked else OutOfFuel.
Proof.
  revert fuel acc. induction queue as [|v queue IH]; intros [|fuel] acc;
    try reflexivity.
  cbn [functional.ForEach_loop iterator.Next iterator.Chan_Next
         iterator.receive mbind Outcome_bind optional.Option_IsSome
         optional.Some optional.some optional.Option_Expect negb
         optional.value].
  rewrite IH. reflexivity.
Qed.

Lemma ForEach_loop_funcIteratorOf (queue : list T) (fuel : nat) :
  (length queue < fuel)%nat ->
  functional.ForEach_loop fuel (iterator.IFunc (examples.funcIteratorOf queue))
    (fun (slice : list T) (t : T) => Return (slice ++ [t], false)) []
  = Return (queue, iterator.IFunc (examples.funcIteratorOf [])).
Proof.
  revert fuel. induction queue as [|v queue IH]; intros [|fuel] Hfuel;
    simpl in Hfuel; try lia; [reflexivity|].
  cbn [functional.ForEach_loop iterator.Next iterator.Func_Next
         examples.funcIteratorOf iterator.body iterator.captured iterator.env
         iterator.Chan_Next iterator.receive mbind Outcome_bind
         optional.Option_IsSome optional.Some optional.some
         optional.Option_Expect negb optional.value app].
  rewrite (ForEach_loop_collecting_from fuel _ [v]).
  change (Some {| iterator.env := iterator.Chan T;
                  iterator.body := fun ch => iterator.Chan_Next ch;
                  iterator.captured := iterator.chan queue true |})
    with (examples.funcIteratorOf queue).
  rewrite IH by lia. reflexivity.
Qed.

End ChanFacts.

(** X5: a channel filled by [Send] and then closed, used as an iterator,
    is collected to the values that were sent, in the order they were sent;
    the channel is left empty and [Next()] on it keeps returning None. *)
Theorem Chan_closed_round_trip {T : Type} `{ZeroValue T} (values : list T)
  (fuel : nat) :
  (length values < fuel)%nat ->
  exists c : iterator.Chan T,
    iterator.close (iterator.Send values) = Return c /\
    functional.Collect fuel (iterator.IChan c)
    = Return (values, iterator.IChan (iterator.chan [] true)) /\
    iterator.Next (iterator.IChan (iterator.chan [] true))
    = Return (optional.None, iterator.IChan (iterator.chan [] true)).
Proof.
  intros Hfuel. eexists. split; [reflexivity|]. split; [|reflexivity].
  by apply ForEach_loop_closed_Chan.
Qed.

Lemma Chan_closed_round_trip_witness :
  (length [4; 9; 13] < 4)%nat /\
  exists c : iterator.Chan Z,
    iterator.close (iterator.Send [4; 9; 13]) = Return c /\
    functional.Collect 4 (iterator.IChan c)
    = Return ([4; 9; 13], iterator.IChan (iterator.chan [] true)) /\
    iterator.Next (iterator.IChan (iterator.chan ([] : list Z) true))
    = Return (optional.None, iterator.IChan (iterator.chan [] true)).
Proof.
  assert (length [4; 9; 13] < 4)%nat as Hfuel by (simpl; lia).
  split; [exact Hfuel|]. exact (Chan_closed_round_trip [4; 9; 13] 4 Hfuel).
Defined.

(** X6: [Collect] over a channel that is never closed does not return:
    after the values that were sent it blocks on the receive, and so it does
    from the start on the nil channel; with too little fuel the model stops
    before it gets there. *)
Theorem Collect_open_Chan_never_returns {T : Type} `{ZeroValue T}
  (values : list T) (fuel : nat) :
  functional.Collect fuel (iterator.IChan (iterator.Send values))
  = (if (length values <? fuel)%nat then Blocked else OutOfFuel) /\
  functional.Collect fuel (iterator.IChan iterator.nil_chan)
  = (if (0 <? fuel)%nat then Blocked else OutOfFuel) /\
  returns (functional.Collect fuel (iterator.IChan (iterator.Send values)))
  = false /\
  returns (functional.Collect fuel (iterator.IChan (T := T) iterator.nil_chan))
  = false.
Proof.
  assert (functional.Collect fuel (iterator.IChan (iterator.Send values))
          = (if (length values <? fuel)%nat then Blocked else OutOfFuel)) as E1
    by apply ForEach_loop_open_Chan.
  assert (functional.Collect fuel (iterator.IChan (T := T) iterator.nil_chan)
          = (if (0 <? fuel)%nat then Blocked else OutOfFuel)) as E2
    by (by destruct fuel).
  rewrite E1, E2. repeat split.
  - by destruct (length values <? fuel)%nat.
  - by destruct (0 <? fuel)%nat.
Qed.

(** X7: a nil function iterator is exhausted from the start, and the
    function iterator of iterator_test.go, whose function reads a closed
    channel, is collected to the values of that channel. *)
Theorem Func_iterators_collect {T : Type} `{ZeroValue T} (values : list T)
  (fuel : nat) :
  (length values < fuel)%nat ->
  iterator.Next (iterator.IFunc (T := T) None)
  = Return (optional.None, iterator.IFunc None) /\
  functional.Collect fuel (iterator.IFunc (T := T) None)
  = Return ([], iterator.IFunc None) /\
  functional.Collect fuel (iterator.IFunc (examples.funcIteratorOf values))
  = Return (values, iterator.IFunc (examples.funcIteratorOf [])).
Proof.
  intros Hfuel. split; [reflexivity|]. split.
  - destruct fuel; [lia|reflexivity].
  - by apply ForEach_loop_funcIteratorOf.
Qed.

Lemma Func_iterators_collect_witness :
  (length [4; 9; 13] < 4)%nat /\
  functional.Collect 4 (iterator.IFunc (examples.funcIteratorOf [4; 9; 13]))
  = Return ([4; 9; 13], iterator.IFunc (examples.funcIteratorOf [])).
Proof.
  assert (length [4; 9; 13] < 4)%nat as Hfuel by (simpl; lia).
  split; [exact Hfuel|].
  apply (Func_iterators_collect [4; 9; 13] 4 Hfuel).
Defined.

(** X8: under a context that is not cancelled, the package-level
    [WaitForNext] agrees with [Next()], whatever the dynamic type of the
    iterator, the interleaving of the goroutine and the choice of the
    select: it returns what [Next()] returns and leaves the iterator as
    [Next()] does, and it blocks when [Next()] blocks. *)
Theorem WaitForNext_without_cancellation {T : Type} `{ZeroValue T}
  (sched : iterator.Schedule) (pick : iterator.SelectCase)
  (ctx : context.Context) (iter : iterator.Iterator T) :
  context.Done_closed ctx = false ->
  (forall (o : optional.Option T) (iter' : iterator.Iterator T),
     iterator.Next iter = Return (o, iter') ->
     iterator.WaitForNext sched pick ctx iter
     = Return {| iterator.result := o; iterator.source := iter';
                 iterator.producer_pending := false |}) /\
  (iterator.Next iter = Blocked ->
   iterator.WaitForNext sched pick ctx iter = Blocked).
Proof.
  intros Hctx. split.
  - intros o iter' Hnext.
    destruct iter as [|s|c|f|it]; simpl in Hnext; try discriminate.
    + unfold iterator.WaitForNext, iterator.Slice_WaitForNext.
      destruct (iterator.Slice_Next s) as [[o1 s1]| | |]; simpl in *;
        try discriminate. by injection Hnext as -> <-.
    + unfold iterator.WaitForNext, iterator.Chan_WaitForNext.
      rewrite Hctx. unfold iterator.Chan_Next in Hnext.
      destruct c as [|[|v q] [|]]; simpl in *; try discriminate;
        by injection Hnext as <- <-.
    + unfold iterator.WaitForNext, iterator.waitForNext. rewrite Hctx.
      cbn [iterator.Next]. destruct sched;
        destruct (iterator.Func_Next f) as [[o1 f1]| | |]; simpl in *;
        try discriminate; by injection Hnext as -> <-.
    + unfold iterator.WaitForNext, iterator.waitForNext. rewrite Hctx.
      cbn [iterator.Next]. destruct sched;
        destruct (iterator.Next it) as [[o1 it1]| | |]; simpl in *;
        try discriminate; by injection Hnext as -> <-.
  - intros Hnext.
    destruct iter as [|s|c|f|it]; simpl in Hnext; try discriminate.
    + unfold iterator.WaitForNext, iterator.Slice_WaitForNext.
      by destruct (iterator.Slice_Next s) as [[o1 s1]| | |].
    + unfold iterator.WaitForNext, iterator.Chan_WaitForNext.
      rewrite Hctx. unfold iterator.Chan_Next in Hnext.
      by destruct c as [|[|v q] [|]].
    + unfold iterator.WaitForNext, iterator.waitForNext. rewrite Hctx.
      cbn [iterator.Next]. destruct sched;
        by destruct (iterator.Func_Next f) as [[o1 f1]| | |].
    + unfold iterator.WaitForNext, iterator.waitForNext. rewrite Hctx.
      cbn [iterator.Next]. destruct sched;
        by destruct (iterator.Next it) as [[o1 it1]| | |].
Qed.

Lemma WaitForNext_without_cancellation_witness :
  context.Done_closed context.Background = false /\
  iterator.WaitForNext iterator.SelectFirst iterator.DoneCase
    context.Background (iterator.IFunc (examples.funcIteratorOf [4; 9; 13]))
  = Return {| iterator.result := optional.Some 4;
              iterator.source :=
                iterator.IFunc (examples.funcIteratorOf [9; 13]);
              iterator.producer_pending := false |}.
Proof.
  split; [reflexivity|].
  destruct (WaitForNext_without_cancellation iterator.SelectFirst
              iterator.DoneCase context.Background
              (iterator.IFunc (examples.funcIteratorOf [4; 9; 13])) eq_refl)
    as [Hnext _].
  apply Hnext. reflexivity.
Defined.

(** X9: when nothing can be received from a channel, an open empty one or
    the nil one, and the context is cancelled, the channel's [WaitForNext]
    returns None and leaves the channel alone whichever case the select
    would prefer, where [Next()] would block; on a closed empty channel it
    returns None under every context. *)
Theorem Chan_WaitForNext_nothing_to_receive {T : Type} `{ZeroValue T}
  (pick : iterator.SelectCase) (ctx : context.Context) (c : iterator.Chan T) :
  iterator.can_receive c = false ->
  context.Done_closed ctx = true ->
  iterator.Chan_WaitForNext pick ctx c = Return (optional.None, c) /\
  iterator.Chan_Next c = Blocked /\
  (forall ctx' : context.Context,
     iterator.Chan_WaitForNext pick ctx' (iterator.chan [] true)
     = Return (optional.None, iterator.chan [] true)).
Proof.
  intros Hc Hctx. unfold iterator.Chan_WaitForNext. rewrite Hc, Hctx.
  split; [done|]. split.
  - by destruct c as [|[|v q] [|]].
  - intros ctx'. simpl. by destruct (context.Done_closed ctx'), pick.
Qed.

Lemma Chan_WaitForNext_nothing_to_receive_witness :
  iterator.can_receive (iterator.chan ([] : list Z) false) = false /\
  context.Done_closed context.canceled = true /\
  iterator.Chan_WaitForNext iterator.RecvCase context.canceled
    (iterator.chan ([] : list Z) false)
  = Return (optional.None, iterator.chan [] false).
Proof.
  split; [reflexivity|]. split; [reflexivity|].
  apply (Chan_WaitForNext_nothing_to_receive iterator.RecvCase
           context.canceled (iterator.chan ([] : list Z) false) eq_refl eq_refl).
Defined.

(** ** Package functional, version 2: [Any], [All], [Filter] *)

Section AnyFacts.
Context {T : Type} `{ZeroValue T}.
Variable fn : T -> Outcome bool.
Variable p : T -> bool.
Hypothesis fn_spec : forall t, fn t = Return (p t).

Lemma Any_loop_found (values pre post : list T) (x : T) (fuel n : nat)
  (any : bool) :
  drop n values = pre ++ x :: post ->
  (forall y, y ∈ pre -> p y = false) -> p x = true ->
  (length pre < fuel)%nat ->
  functional.ForEach_loop fuel
    (iterator.PSlice {| iterator.Values := values; iterator.index := Z.of_nat n |})
    (fun (_ : bool) t => any ← fn t; Return (any, any)) any
  = Return (true,
            iterator.PSlice {| iterator.Values := values;
                               iterator.index := Z.of_nat (n + length pre + 1) |}).
Proof.
  revert fuel n any. induction pre as [|y pre IH];
    intros [|fuel] n any Hdrop Hpre Hx Hfuel; simpl in Hfuel; try lia.
  - assert (values !! n = Some x) as Hn.
    { rewrite <- (Nat.add_0_r n), <- lookup_drop, Hdrop. reflexivity. }
    cbn [functional.ForEach_loop iterator.Next].
    rewrite (Slice_Next_present _ _ _ Hn). simpl. rewrite fn_spec, Hx. simpl.
    do 4 f_equal. lia.
  - assert (values !! n = Some y) as Hn.
    { rewrite <- (Nat.add_0_r n), <- lookup_drop, Hdrop. reflexivity. }
    cbn [functional.ForEach_loop iterator.Next].
    rewrite (Slice_Next_present _ _ _ Hn). simpl.
    rewrite fn_spec, (Hpre y) by apply list_elem_of_here. simpl.
    rewrite (IH fuel (S n) false); [|..|simpl in *; lia].
    + do 4 f_equal. simpl. lia.
    + rewrite (drop_S _ _ _ Hn) in Hdrop. by injection Hdrop.
    + intros z Hz. apply Hpre. by apply list_elem_of_further.
    + done.
Qed.

Lemma Any_loop_none (values : list T) (fuel n : nat) :
  (n <= length values)%nat -> (length values - n < fuel)%nat ->
  (forall y, y ∈ drop n values -> p y = false) ->
  functional.ForEach_loop fuel
    (iterator.PSlice {| iterator.Values := values; iterator.index := Z.of_nat n |})
    (fun (_ : bool) t => any ← fn t; Return (any, any)) false
  = Return (false,
            iterator.PSlice {| iterator.Values := values;
                               iterator.index := len values |}).
Proof.
  revert n. induction fuel as [|fuel IH]; intros n Hn Hfuel Hnone; [lia|].
  cbn [functional.ForEach_loop iterator.Next].
  destruct (decide (n = length values)) as [->|Hne].
  - rewrite Slice_Next_exhausted by lia. reflexivity.
  - destruct (lookup_lt_is_Some_2 values n) as [v Hv]; [lia|].
    rewrite (Slice_Next_present _ _ _ Hv). simpl.
    rewrite (drop_S _ _ _ Hv) in Hnone.
    rewrite fn_spec, (Hnone v) by apply list_elem_of_here. simpl.
    apply IH; [lia..|]. intros y Hy. apply Hnone. by apply list_elem_of_further.
Qed.

End AnyFacts.

Lemma existsb_first {T : Type} (p : T -> bool) (values : list T) :
  existsb p values = true ->
  exists pre x post,
    values = pre ++ x :: post /\ (forall y, y ∈ pre -> p y = false) /\
    p x = true.
Proof.
  induction values as [|v values IH]; simpl; [done|].
  destruct (p v) eqn:Hv; simpl.
  - intros _. exists [], v, values. split; [done|]. split; [|done].
    intros y Hy. by apply elem_of_nil in Hy.
  - intros Hex. destruct (IH Hex) as (pre & x & post & -> & Hpre & Hx).
    exists (v :: pre), x, post. split; [done|]. split; [|done].
    intros y Hy. apply elem_of_cons in Hy as [->|Hy]; auto.
Qed.

Lemma existsb_none {T : Type} (p : T -> bool) (values : list T) :
  existsb p values = false -> forall y, y ∈ values -> p y = false.
Proof.
  induction values as [|v values IH]; simpl.
  { intros _ y Hy. by apply elem_of_nil in Hy. }
  intros [Hv Hex]%orb_false_iff y Hy.
  apply elem_of_cons in Hy as [->|Hy]; auto.
Qed.

Lemma existsb_negb {T : Type} (p : T -> bool) (values : list T) :
  existsb (fun t => negb (p t)) values = negb (forallb p values).
Proof.
  induction values as [|v values IH]; simpl; [done|].
  rewrite IH. by destruct (p v).
Qed.

(** X10: [Any] over a fresh bounded-sequence iterator answers whether some
    element satisfies the function.  It short-circuits: it stops right
    after the first element that does, leaving the cursor behind that
    element; when none does, the iterator is drained and the answer is
    false, as it is on an empty sequence. *)
Theorem Any_over_Slice {T : Type} `{ZeroValue T} (p : T -> bool)
  (values : list T) (fuel : nat) :
  (length values < fuel)%nat ->
  answer (functional.Any fuel (examples.iteratorOver values) (call (Some p)))
  = Return (existsb p values) /\
  (forall pre x post,
     values = pre ++ x :: post -> (forall y, y ∈ pre -> p y = false) ->
     p x = true ->
     functional.Any fuel (examples.iteratorOver values) (call (Some p))
     = Return (true,
               iterator.PSlice {| iterator.Values := values;
                                  iterator.index := len pre + 1 |})) /\
  (existsb p values = false ->
   functional.Any fuel (examples.iteratorOver values) (call (Some p))
   = Return (false,
             iterator.PSlice {| iterator.Values := values;
                                iterator.index := len values |})).
Proof.
  intros Hfuel.
  assert (forall pre x post,
     values = pre ++ x :: post -> (forall y, y ∈ pre -> p y = false) ->
     p x = true ->
     functional.Any fuel (examples.iteratorOver values) (call (Some p))
     = Return (true,
               iterator.PSlice {| iterator.Values := values;
                                  iterator.index := len pre + 1 |}))
    as Hfound.
  { intros pre x post Hvalues Hpre Hx.
    unfold functional.Any, examples.iteratorOver, functional.ForEach.
    rewrite (Any_loop_found (call (Some p)) p (fun t => eq_refl)
               values pre post x fuel 0 false); try done.
    - do 4 f_equal. unfold len. lia.
    - rewrite Hvalues in Hfuel. rewrite length_app in Hfuel. simpl in Hfuel. lia. }
  assert (existsb p values = false ->
     functional.Any fuel (examples.iteratorOver values) (call (Some p))
     = Return (false,
               iterator.PSlice {| iterator.Values := values;
                                  iterator.index := len values |}))
    as Hnone.
  { intros Hex.
    unfold functional.Any, examples.iteratorOver, functional.ForEach.
    apply (Any_loop_none (call (Some p)) p (fun t => eq_refl) values fuel 0);
      [lia..|]. simpl. by apply existsb_none. }
  split; [|by split].
  destruct (existsb p values) eqn:Hex.
  - destruct (existsb_first p values Hex) as (pre & x & post & Hv & Hpre & Hx).
    by rewrite (Hfound pre x post Hv Hpre Hx).
  - by rewrite Hnone.
Qed.

Lemma Any_over_Slice_witness :
  (length ([-2; 0; 2; 5]%Z : list Z) < 5)%nat /\
  functional.Any 5 (examples.iteratorOver [-2; 0; 2; 5])
    (call (Some (fun x => 0 <? x)))
  = Return (true,
            iterator.PSlice {| iterator.Values := [-2; 0; 2; 5];
                               iterator.index := len [-2; 0] + 1 |}).
Proof.
  assert (length ([-2; 0; 2; 5]%Z : list Z) < 5)%nat as Hfuel by (simpl; lia).
  split; [exact Hfuel|].
  destruct (Any_over_Slice (fun x => 0 <? x) [-2; 0; 2; 5] 5 Hfuel)
    as (_ & Hfound & _).
  apply (Hfound [-2; 0] 2 [5]); [reflexivity| |reflexivity].
  intros y Hy. apply elem_of_cons in Hy as [->|Hy]; [reflexivity|].
  apply elem_of_cons in Hy as [->|Hy]; [reflexivity|].
  by apply elem_of_nil in Hy.
Defined.

(** X11: [All] over a fresh bounded-sequence iterator answers whether every
    element satisfies the function, true on the empty sequence.  It
    short-circuits on the first element that does not, leaving the cursor
    behind that element. *)
Theorem All_over_Slice {T : Type} `{ZeroValue T} (p : T -> bool)
  (values : list T) (fuel : nat) :
  (length values < fuel)%nat ->
  answer (functional.All fuel (examples.iteratorOver values) (call (Some p)))
  = Return (forallb p values) /\
  (forall pre x post,
     values = pre ++ x :: post -> (forall y, y ∈ pre -> p y = true) ->
     p x = false ->
     functional.All fuel (examples.iteratorOver values) (call (Some p))
     = Return (false,
               iterator.PSlice {| iterator.Values := values;
                                  iterator.index := len pre + 1 |})) /\
  (forallb p values = true ->
   functional.All fuel (examples.iteratorOver values) (call (Some p))
   = Return (true,
             iterator.PSlice {| iterator.Values := values;
                                iterator.index := len values |})).
Proof.
  intros Hfuel.
  assert (forall pre x post,
     values = pre ++ x :: post -> (forall y, y ∈ pre -> p y = true) ->
     p x = false ->
     functional.All fuel (examples.iteratorOver values) (call (Some p))
     = Return (false,
               iterator.PSlice {| iterator.Values := values;
                                  iterator.index := len pre + 1 |}))
    as Hfound.
  { intros pre x post Hvalues Hpre Hx.
    unfold functional.All, functional.Any, examples.iteratorOver,
      functional.ForEach.
    rewrite (Any_loop_found (fun t => b ← call (Some p) t; Return (negb b))
               (fun t => negb (p t)) (fun t => eq_refl)
               values pre post x fuel 0 false); try done.
    - simpl. do 4 f_equal. unfold len. lia.
    - intros y Hy. by rewrite Hpre.
    - by rewrite Hx.
    - rewrite Hvalues in Hfuel. rewrite length_app in Hfuel. simpl in Hfuel. lia. }
  assert (forallb p values = true ->
     functional.All fuel (examples.iteratorOver values) (call (Some p))
     = Return (true,
               iterator.PSlice {| iterator.Values := values;
                                  iterator.index := len values |}))
    as Hnone.
  { intros Hall.
    unfold functional.All, functional.Any, examples.iteratorOver,
      functional.ForEach.
    rewrite (Any_loop_none (fun t => b ← call (Some p) t; Return (negb b))
               (fun t => negb (p t)) (fun t => eq_refl) values fuel 0);
      [done|lia..|].
    simpl. apply (existsb_none (fun t => negb (p t)) values).
    by rewrite existsb_negb, Hall. }
  split; [|by split].
  destruct (forallb p values) eqn:Hall.
  - by rewrite Hnone.
  - assert (existsb (fun t => negb (p t)) values = true) as Hex
      by (by rewrite existsb_negb, Hall).
    destruct (existsb_first _ values Hex) as (pre & x & post & Hv & Hpre & Hx).
    rewrite (Hfound pre x post Hv); [done| |by destruct (p x)].
    intros y Hy. specialize (Hpre y Hy). by destruct (p y).
Qed.

Lemma All_over_Slice_witness :
  (length [3; 5; 0] < 4)%nat /\
  answer (functional.All 4 (examples.iteratorOver [3; 5; 0])
            (call (Some (fun x => 0 <? x))))
  = Return (forallb (fun x => 0 <? x) [3; 5; 0]).
Proof.
  assert (length [3; 5; 0] < 4)%nat as Hfuel by (simpl; lia).
  split; [exact Hfuel|].
  apply (All_over_Slice (fun x => 0 <? x) [3; 5; 0] 4 Hfuel).
Defined.

Section FilterFacts.
Context {T : Type} `{ZeroValue T}.

Lemma fold_left_append_kept (p : T -> bool) (xs values : list T) (i : Z) :
  fold_left
    (fun (filtered : iterator.Slice T) (t : T) =>
       if p t
       then {| iterator.Values := iterator.Values filtered ++ [t];
               iterator.index := iterator.index filtered |}
       else filtered)
    xs {| iterator.Values := values; iterator.index := i |}
  = {| iterator.Values := values ++ List.filter p xs; iterator.index := i |}.
Proof.
  revert values. induction xs as [|x xs IH]; intros values; simpl.
  - by rewrite app_nil_r.
  - destruct (p x); simpl; rewrite IH; [|done]. by rewrite <- app_assoc.
Qed.

(** [Filter] gathers the elements as [Collect] does and keeps those that
    satisfy the function. *)
Lemma Filter_via_Collect (p : T -> bool) (fuel : nat)
  (iter : iterator.Iterator T) :
  functional.Filter fuel iter (Some p)
  = '(xs, it) ← functional.Collect fuel iter;
    Return (examples.iteratorOver (List.filter p xs), it).
Proof.
  unfold functional.Filter.
  rewrite (ForEach_fold _
             (fun (filtered : iterator.Slice T) (t : T) =>
                if p t
                then {| iterator.Values := iterator.Values filtered ++ [t];
                        iterator.index := iterator.index filtered |}
                else filtered)).
  - destruct (functional.Collect fuel iter) as [[xs it]| | |]; simpl; try done.
    unfold functional.allocate. by rewrite fold_left_append_kept.
  - intros filtered t. simpl. by destruct (p t).
Qed.

(** Every pass of the loop of [ForEach] over a [sorted] value is a pass over
    the iterator it embeds. *)
Lemma ForEach_loop_sorted {A : Type} (fn : A -> T -> Outcome (A * bool))
  (fuel : nat) (it : iterator.Iterator T) (a : A) :
  functional.ForEach_loop fuel (iterator.sorted it) fn a
  = '(a', it') ← functional.ForEach_loop fuel it fn a;
    Return (a', iterator.sorted it').
Proof.
  revert it a. induction fuel as [|fuel IH]; intros it a; simpl; [done|].
  destruct (iterator.Next it) as [[o it']| | |]; simpl; try done.
  destruct (optional.Option_IsSome o); simpl; [|done].
  destruct (optional.Option_Expect o) as [t| | |]; simpl; try done.
  destruct (fn a t) as [[a' stopped]| | |]; simpl; try done.
  destruct stopped; [done|]. apply IH.
Qed.

End FilterFacts.

(** X12: the iterator version of [Filter] drains its argument as [Collect]
    does and returns a fresh bounded-sequence iterator over the elements
    that satisfy the function, in their original order; over a fresh
    bounded-sequence iterator it returns, and collecting its result gives
    the filtered sequence. *)
Theorem Filter_keeps_satisfying_in_order {T : Type} `{ZeroValue T}
  (p : T -> bool) (iter : iterator.Iterator T) (values : list T) (fuel : nat) :
  (length values < fuel)%nat ->
  functional.Filter fuel iter (Some p)
  = ('(xs, it) ← functional.Collect fuel iter;
     Return (examples.iteratorOver (List.filter p xs), it)) /\
  functional.Filter fuel (examples.iteratorOver values) (Some p)
  = Return (examples.iteratorOver (List.filter p values),
            iterator.PSlice {| iterator.Values := values;
                               iterator.index := len values |}) /\
  answer (functional.Collect fuel
            (examples.iteratorOver (List.filter p values)))
  = Return (List.filter p values).
Proof.
  intros Hfuel. split; [apply Filter_via_Collect|]. split.
  - by rewrite Filter_via_Collect, Collect_Slice by done.
  - rewrite Collect_Slice; [done|].
    pose proof (filter_length p values). lia.
Qed.

Lemma Filter_keeps_satisfying_in_order_witness :
  (length ([-1; 0; 1]%Z : list Z) < 4)%nat /\
  functional.Filter 4 (examples.iteratorOver [-1; 0; 1])
    (Some (fun x => 0 <? x))
  = Return (examples.iteratorOver (List.filter (fun x => 0 <? x) [-1; 0; 1]),
            iterator.PSlice {| iterator.Values := [-1; 0; 1];
                               iterator.index := len [-1; 0; 1] |}).
Proof.
  assert (length ([-1; 0; 1]%Z : list Z) < 4)%nat as Hfuel by (simpl; lia).
  split; [exact Hfuel|].
  apply (Filter_keeps_satisfying_in_order (fun x => 0 <? x)
           iterator.nil_Iterator [-1; 0; 1] 4 Hfuel).
Defined.

(** X13: the iterator versions of [Map], [Filter] and [Reduce] do not check
    their function argument: with a nil function they panic with the nil
    dereference of the runtime when the first element is handed to it, and
    return normally when the iterator is empty or nil. *)
Theorem nil_function_panics_on_first_element {T To : Type} `{ZeroValue T}
  `{ZeroValue To} (v : T) (rest : list T) (fuel : nat) :
  (0 < fuel)%nat ->
  (functional.Map (To := To) fuel (examples.iteratorOver (v :: rest)) None
   = Panic nil_dereference /\
   functional.Filter fuel (examples.iteratorOver (v :: rest)) None
   = Panic nil_dereference /\
   functional.Reduce (To := To) fuel (examples.iteratorOver (v :: rest)) None
   = Panic nil_dereference) /\
  (functional.Map (To := To) fuel (examples.iteratorOver ([] : list T)) None
   = Return (examples.iteratorOver [], examples.iteratorOver []) /\
   functional.Filter fuel (examples.iteratorOver ([] : list T)) None
   = Return (examples.iteratorOver [], examples.iteratorOver []) /\
   functional.Reduce (To := To) fuel (examples.iteratorOver ([] : list T)) None
   = Return (zero, examples.iteratorOver [])) /\
  (functional.Map (To := To) fuel (iterator.nil_Iterator (T := T)) None
   = Return (examples.iteratorOver [], iterator.nil_Iterator) /\
   functional.Filter fuel (iterator.nil_Iterator (T := T)) None
   = Return (examples.iteratorOver [], iterator.nil_Iterator) /\
   functional.Reduce (To := To) fuel (iterator.nil_Iterator (T := T)) None
   = Return (zero, iterator.nil_Iterator)).
Proof.
  intros Hfuel. destruct fuel as [|fuel]; [lia|]. by repeat split.
Qed.

Lemma nil_function_panics_on_first_element_witness :
  (0 < 1)%nat /\
  functional.Map (To := Z) 1 (examples.iteratorOver [7; 8]) None
  = Panic nil_dereference.
Proof.
  assert (0 < 1)%nat as Hfuel by lia.
  split; [exact Hfuel|].
  apply (nil_function_panics_on_first_element (To := Z) 7 [8] 1 Hfuel).
Defined.

(** ** Package functional, version 2: [Equal] and [Sort] *)

(** X14: [Equal] between an iterator whose dynamic type is not the
    bounded-sequence iterator (nil, channel, function or sorted) and a
    bounded-sequence iterator with a positive count other than 16 is false
    in both orders, whatever the two would yield: the size hints differ and
    no element is read from either. *)
Theorem Equal_false_without_Count {T : Type} `{ZeroValue T} `{comparable T}
  (a : iterator.Iterator T) (s : iterator.Slice T) (fuel : nat) :
  (forall s', a <> iterator.PSlice s') ->
  iterator.Slice_Count s > 0 ->
  iterator.Slice_Count s <> functional.defaultSize ->
  functional.getSizeHint a = functional.defaultSize /\
  functional.Equal fuel a (iterator.PSlice s)
  = Return (false, (a, iterator.PSlice s)) /\
  functional.Equal fuel (iterator.PSlice s) a
  = Return (false, (iterator.PSlice s, a)).
Proof.
  intros Ha Hpos Hne.
  assert (functional.getSizeHint a = functional.defaultSize) as Hhint.
  { destruct a; try reflexivity. by destruct (Ha s0). }
  assert (functional.getSizeHint (iterator.PSlice s) = iterator.Slice_Count s)
    as Hs.
  { unfold functional.getSizeHint.
    destruct (Z.gtb_spec (iterator.Slice_Count s) 0); [done|lia]. }
  split; [done|]. unfold functional.Equal. rewrite Hhint, Hs.
  split; by rewrite bool_decide_eq_true_2 by congruence.
Qed.

Lemma Equal_false_without_Count_witness :
  let a := iterator.sorted (examples.iteratorOver [1; 2]) in
  let s := {| iterator.Values := [1; 2]; iterator.index := 0 |} in
  (forall s', a <> iterator.PSlice s') /\
  iterator.Slice_Count s > 0 /\
  iterator.Slice_Count s <> functional.defaultSize /\
  functional.Equal 0 a (iterator.PSlice s)
  = Return (false, (a, iterator.PSlice s)).
Proof.
  intros a s.
  assert (forall s', a <> iterator.PSlice s') as Ha by done.
  assert (iterator.Slice_Count s > 0) as Hpos by done.
  assert (iterator.Slice_Count s <> functional.defaultSize) as Hne by done.
  split; [exact Ha|]. split; [exact Hpos|]. split; [exact Hne|].
  apply (Equal_false_without_Count a s 0 Ha Hpos Hne).
Defined.

(** X15: on two closed channels, used as iterators, [Equal] drains both and
    answers true exactly when they held the same values in the same order,
    provided [==] on the elements decides equality; channels of different
    lengths are only told apart after both have been collected. *)
Theorem Equal_closed_Chans {T : Type} `{ZeroValue T} `{comparable T}
  (xs ys : list T) (fuel : nat) :
  (forall x y : T, equal x y = true <-> x = y) ->
  (length xs < fuel)%nat -> (length ys < fuel)%nat ->
  exists r : bool,
    functional.Equal fuel (iterator.IChan (iterator.chan xs true))
      (iterator.IChan (iterator.chan ys true))
    = Return (r, (iterator.IChan (iterator.chan [] true),
                  iterator.IChan (iterator.chan [] true))) /\
    (r = true <-> xs = ys).
Proof.
  intros Heq Hxs Hys. unfold functional.Equal.
  rewrite bool_decide_eq_false_2 by (by intros Hne; apply Hne).
  unfold functional.Collect, functional.ForEach, functional.allocate.
  rewrite !ForEach_loop_closed_Chan by done.
  cbn -[functional.Equal_loop len]. case_bool_decide as Hlen.
  - exists false. split; [done|]. split; [done|]. intros ->. by destruct Hlen.
  - assert (length xs = length ys) as Hl by (unfold len in Hlen; lia).
    destruct (Equal_loop_spec Heq xs ys (S (length xs)) 0 Hl) as (r & E & Hr);
      [lia..|].
    change (Z.of_nat 0) with 0 in E. rewrite E. by exists r.
Qed.

Lemma Equal_closed_Chans_witness :
  (forall x y : Z, equal x y = true <-> x = y) /\
  (length ([1]%Z : list Z) < 3)%nat /\ (length ([1; 2]%Z : list Z) < 3)%nat /\
  exists r : bool,
    functional.Equal 3 (iterator.IChan (iterator.chan [1] true))
      (iterator.IChan (iterator.chan [1; 2] true))
    = Return (r, (iterator.IChan (iterator.chan [] true),
                  iterator.IChan (iterator.chan [] true))) /\
    (r = true <-> [1] = [1; 2]).
Proof.
  assert (forall x y : Z, equal x y = true <-> x = y) as Heq
    by (intros x y; apply Z.eqb_eq).
  assert (length ([1]%Z : list Z) < 3)%nat as H1 by (simpl; lia).
  assert (length ([1; 2]%Z : list Z) < 3)%nat as H2 by (simpl; lia).
  split; [exact Heq|]. split; [exact H1|]. split; [exact H2|].
  exact (Equal_closed_Chans [1] [1; 2] 3 Heq H1 H2).
Defined.

(** X16: [Equal] called with one and the same bounded-sequence iterator for
    both parameters is false unless the sequence is empty: the first
    [Collect] drains the iterator and the second one finds nothing. *)
Theorem Equal_same_object {T : Type} `{ZeroValue T} `{comparable T}
  (values : list T) (fuel : nat) :
  (length values < fuel)%nat ->
  functional.Equal_same fuel (examples.iteratorOver values)
  = Return (match values with [] => true | _ :: _ => false end,
            iterator.PSlice {| iterator.Values := values;
                               iterator.index := len values |}).
Proof.
  intros Hfuel. unfold functional.Equal_same.
  rewrite bool_decide_eq_false_2 by (by intros Hne; apply Hne).
  rewrite Collect_Slice by done. cbn -[functional.Equal_loop len functional.Collect].
  assert (functional.Collect fuel
            (iterator.PSlice {| iterator.Values := values;
                                iterator.index := len values |})
          = Return ([], iterator.PSlice {| iterator.Values := values;
                                           iterator.index := len values |}))
    as Hagain.
  { unfold functional.Collect, functional.ForEach, functional.allocate, len.
    rewrite (ForEach_loop_Slice values fuel (length values)) by lia.
    by rewrite drop_all. }
  rewrite Hagain. cbn -[functional.Equal_loop len].
  destruct values as [|v values]; [reflexivity|].
  rewrite bool_decide_eq_true_2; [done|]. unfold len. simpl. lia.
Qed.

Lemma Equal_same_object_witness :
  (length ([2; 1]%Z : list Z) < 3)%nat /\
  functional.Equal_same 3 (examples.iteratorOver [2; 1])
  = Return (false, iterator.PSlice {| iterator.Values := [2; 1];
                                      iterator.index := len [2; 1] |}).
Proof.
  assert (length ([2; 1]%Z : list Z) < 3)%nat as Hfuel by (simpl; lia).
  split; [exact Hfuel|]. exact (Equal_same_object [2; 1] 3 Hfuel).
Defined.

(** X17: what [Sort] yields on a fresh bounded-sequence iterator.  When
    [sort.IsSorted] accepts the collected sequence, the result yields that
    very sequence, for either flag and whatever the sorting functions are;
    otherwise it yields what [sort.Stable] makes of it when the flag is set
    and what [sort.Sort] makes of it when not.  The result has no [Count],
    so its size hint is the default. *)
Theorem Sort_over_Slice {T : Type} `{ZeroValue T} `{functional.Comparable T}
  (sort_IsSorted : (T -> T -> bool) -> list T -> bool)
  (sort_Sort sort_Stable : (T -> T -> bool) -> list T -> list T)
  (values : list T) (fuel : nat) (stable : bool) :
  (length values < fuel)%nat ->
  let chosen :=
    if sort_IsSorted functional.Less values then values
    else if stable then sort_Stable functional.Less values
         else sort_Sort functional.Less values in
  let result := iterator.sorted (examples.iteratorOver chosen) in
  functional.Sort sort_IsSorted sort_Sort sort_Stable fuel
    (examples.iteratorOver values) stable
  = Return (result, iterator.PSlice {| iterator.Values := values;
                                       iterator.index := len values |}) /\
  functional.getSizeHint result = functional.defaultSize /\
  (forall enough : nat,
     (length chosen < enough)%nat ->
     answer (functional.Collect enough result) = Return chosen).
Proof.
  intros Hfuel chosen result. split; [|split; [reflexivity|]].
  - unfold functional.Sort.
    change (match examples.iteratorOver values with
            | iterator.sorted _ => ?a | _ => ?b end) with b.
    rewrite Collect_Slice by done. simpl. subst result chosen.
    by destruct (sort_IsSorted functional.Less values).
  - intros enough Henough. subst result.
    unfold functional.Collect, functional.ForEach, functional.allocate.
    rewrite ForEach_loop_sorted.
    pose proof (Collect_Slice chosen enough Henough) as Hc.
    unfold functional.Collect, functional.ForEach, functional.allocate,
      examples.iteratorOver in Hc.
    unfold examples.iteratorOver. by rewrite Hc.
Qed.

Lemma Sort_over_Slice_witness :
  (length ([0; 1; 2]%Z : list Z) < 4)%nat /\
  functional.Sort examples.IsSorted examples.insertion_sort
    examples.insertion_sort 4 (examples.iteratorOver [0; 1; 2]) false
  = Return (iterator.sorted (examples.iteratorOver [0; 1; 2]),
            iterator.PSlice {| iterator.Values := [0; 1; 2];
                               iterator.index := 3 |}).
Proof.
  assert (length ([0; 1; 2]%Z : list Z) < 4)%nat as Hfuel by (simpl; lia).
  split; [exact Hfuel|].
  destruct (Sort_over_Slice examples.IsSorted examples.insertion_sort
              examples.insertion_sort [0; 1; 2] 4 false Hfuel) as [Hsort _].
  exact Hsort.
Defined.

(** ** number.go at the type [int] *)

Lemma wrap64_mod (a : Z) : wrap64 a mod 2 ^ 64 = a mod 2 ^ 64.
Proof.
  unfold wrap64. rewrite Zminus_mod_idemp_l. f_equal. lia.
Qed.

Lemma wrap64_congr (a b : Z) :
  a mod 2 ^ 64 = b mod 2 ^ 64 -> wrap64 a = wrap64 b.
Proof.
  intros Hab. unfold wrap64.
  by rewrite <- (Zplus_mod_idemp_l a), Hab, Zplus_mod_idemp_l.
Qed.

Lemma wrap64_add_l (a b : Z) : wrap64 (wrap64 a + b) = wrap64 (a + b).
Proof.
  apply wrap64_congr.
  by rewrite <- Zplus_mod_idemp_l, wrap64_mod, Zplus_mod_idemp_l.
Qed.

Lemma wrap64_add_r (a b : Z) : wrap64 (a + wrap64 b) = wrap64 (a + b).
Proof. by rewrite Z.add_comm, wrap64_add_l, Z.add_comm. Qed.

Lemma wrap64_mul_l (a b : Z) : wrap64 (wrap64 a * b) = wrap64 (a * b).
Proof.
  apply wrap64_congr.
  by rewrite <- Zmult_mod_idemp_l, wrap64_mod, Zmult_mod_idemp_l.
Qed.

Lemma wrap64_mul_r (a b : Z) : wrap64 (a * wrap64 b) = wrap64 (a * b).
Proof. by rewrite Z.mul_comm, wrap64_mul_l, Z.mul_comm. Qed.

Lemma fold_left_int_add (xs : list Z) (a : Z) :
  fold_left (fun accum cur => int_add accum cur) xs (wrap64 a)
  = wrap64 (a + foldr Z.add 0 xs).
Proof.
  revert a. induction xs as [|x xs IH]; intros a; cbn [fold_left foldr].
  - by rewrite Z.add_0_r.
  - unfold int_add at 2. rewrite wrap64_add_l, IH. f_equal. lia.
Qed.

Lemma fold_left_int_mul_zero (xs : list Z) :
  fold_left (fun accum cur => int_mul accum cur) xs 0 = 0.
Proof. induction xs as [|x xs IH]; [done|]. cbn [fold_left]. exact IH. Qed.

Lemma fold_left_dot (pairs : list (Z * Z)) (a : Z) :
  fold_left (fun accum '(x, y) => int_add accum (int_mul x y)) pairs (wrap64 a)
  = wrap64 (a + foldr (fun '(x, y) s => x * y + s) 0 pairs).
Proof.
  revert a. induction pairs as [|[x y] pairs IH]; intros a;
    cbn [fold_left foldr].
  - by rewrite Z.add_0_r.
  - unfold int_add at 2, int_mul at 2.
    rewrite wrap64_add_l, wrap64_add_r, IH. f_equal. lia.
Qed.

(** The loop of [Reduce] under the callback of [DotProduct], which pulls
    from the captured [b] at every element of [a]. *)
Lemma ForEach_loop_dot
  (cb : Z * iterator.Enumerable Z -> Z -> Outcome (Z * iterator.Enumerable Z * bool))
  (va vb : list Z) (fuel n m : nat) (acc : Z) :
  (forall accum sb x,
     cb (accum, Some sb) x
     = '(o, sb') ← iterator.Slice_Next sb;
       y ← optional.Option_Expect o;
       Return ((int_add accum (int_mul x y), Some sb'), false)) ->
  (n <= length va)%nat -> (m <= length vb)%nat ->
  (length va - n = length vb - m)%nat -> (length va - n < fuel)%nat ->
  functional.ForEach_loop fuel
    (iterator.PSlice {| iterator.Values := va; iterator.index := Z.of_nat n |})
    cb (acc, Some {| iterator.Values := vb; iterator.index := Z.of_nat m |})
  = Return
      ((fold_left (fun accum '(x, y) => int_add accum (int_mul x y))
          (zip (drop n va) (drop m vb)) acc,
        Some {| iterator.Values := vb; iterator.index := len vb |}),
       iterator.PSlice {| iterator.Values := va; iterator.index := len va |}).
Proof.
  intros Hcb. revert n m acc.
  induction fuel as [|fuel IH]; intros n m acc Hn Hm Hnm Hfuel; [lia|].
  cbn [functional.ForEach_loop iterator.Next].
  destruct (decide (n = length va)) as [->|Hne].
  - rewrite Slice_Next_exhausted by lia. simpl.
    assert (m = length vb) as -> by lia. by rewrite !drop_all.
  - destruct (lookup_lt_is_Some_2 va n) as [x Hx]; [lia|].
    destruct (lookup_lt_is_Some_2 vb m) as [y Hy]; [lia|].
    rewrite (Slice_Next_present _ _ _ Hx). simpl.
    rewrite Hcb, (Slice_Next_present _ _ _ Hy). simpl.
    rewrite IH by lia.
    by rewrite (drop_S _ _ _ Hx), (drop_S _ _ _ Hy).
Qed.

(** X18: [Sum] at the type [int] returns the sum of the elements that
    [Collect] would gather, reduced to 64 bits, and 0 when there is none;
    over a fresh bounded-sequence iterator it returns once the fuel exceeds
    the length. *)
Theorem Sum_int (iter : iterator.Iterator Z) (values : list Z) (fuel : nat) :
  (length values < fuel)%nat ->
  functional.Sum fuel iter
  = ('(xs, it) ← functional.Collect fuel iter;
     Return (wrap64 (foldr Z.add 0 xs), it)) /\
  functional.Sum fuel (examples.iteratorOver values)
  = Return (wrap64 (foldr Z.add 0 values),
            iterator.PSlice {| iterator.Values := values;
                               iterator.index := len values |}) /\
  answer (functional.Sum fuel (examples.iteratorOver [])) = Return 0.
Proof.
  intros Hfuel.
  assert (forall it : iterator.Iterator Z,
            functional.Sum fuel it
            = '(xs, it') ← functional.Collect fuel it;
              Return (wrap64 (foldr Z.add 0 xs), it')) as Hsum.
  { intros it. unfold functional.Sum. rewrite Reduce_via_Collect.
    destruct (functional.Collect fuel it) as [[xs it']| | |]; try done.
    cbn [mbind Outcome_bind]. do 2 f_equal.
    apply (fold_left_int_add xs 0). }
  split; [apply Hsum|]. split.
  - by rewrite Hsum, Collect_Slice by done.
  - by rewrite Hsum, Collect_Slice by (simpl; lia).
Qed.

Lemma Sum_int_witness :
  (length ([1; 2; 3]%Z : list Z) < 4)%nat /\
  functional.Sum 4 (examples.iteratorOver [1; 2; 3])
  = Return (wrap64 (foldr Z.add 0 [1; 2; 3]),
            iterator.PSlice {| iterator.Values := [1; 2; 3];
                               iterator.index := len [1; 2; 3] |}).
Proof.
  assert (length ([1; 2; 3]%Z : list Z) < 4)%nat as Hfuel by (simpl; lia).
  split; [exact Hfuel|].
  destruct (Sum_int iterator.nil_Iterator [1; 2; 3] 4 Hfuel) as (_ & E & _).
  exact E.
Defined.

(** X19: [MultiplyScalar] at the type [int] returns 0 whatever the elements
    are: its accumulator starts from the zero value and every product with
    it is 0. *)
Theorem MultiplyScalar_int_is_zero (iter : iterator.Iterator Z)
  (values : list Z) (fuel : nat) :
  (length values < fuel)%nat ->
  functional.MultiplyScalar fuel iter
  = ('(xs, it) ← functional.Collect fuel iter; Return (0, it)) /\
  functional.MultiplyScalar fuel (examples.iteratorOver values)
  = Return (0, iterator.PSlice {| iterator.Values := values;
                                  iterator.index := len values |}).
Proof.
  intros Hfuel.
  assert (forall it : iterator.Iterator Z,
            functional.MultiplyScalar fuel it
            = '(xs, it') ← functional.Collect fuel it; Return (0, it'))
    as Hzero.
  { intros it. unfold functional.MultiplyScalar. rewrite Reduce_via_Collect.
    destruct (functional.Collect fuel it) as [[xs it']| | |]; try done.
    cbn [mbind Outcome_bind]. do 2 f_equal. apply fold_left_int_mul_zero. }
  split; [apply Hzero|]. by rewrite Hzero, Collect_Slice by done.
Qed.

Lemma MultiplyScalar_int_is_zero_witness :
  (length ([2; 3; 4]%Z : list Z) < 4)%nat /\
  functional.MultiplyScalar 4 (examples.iteratorOver [2; 3; 4])
  = Return (0, iterator.PSlice {| iterator.Values := [2; 3; 4];
                                  iterator.index := len [2; 3; 4] |}).
Proof.
  assert (length ([2; 3; 4]%Z : list Z) < 4)%nat as Hfuel by (simpl; lia).
  split; [exact Hfuel|].
  destruct (MultiplyScalar_int_is_zero iterator.nil_Iterator [2; 3; 4] 4 Hfuel)
    as (_ & E).
  exact E.
Defined.

(** X20: [DotProduct] at the type [int], on two distinct fresh
    bounded-sequence iterators of the same length, returns the sum of the
    products of the elements at the same index, reduced to 64 bits, and
    drains both iterators. *)
Theorem DotProduct_int (va vb : list Z) (fuel : nat) :
  length va = length vb -> (length va < fuel)%nat ->
  functional.DotProduct fuel
    (Some {| iterator.Values := va; iterator.index := 0 |})
    (Some {| iterator.Values := vb; iterator.index := 0 |})
  = Return (wrap64 (foldr (fun '(x, y) s => x * y + s) 0 (zip va vb)),
            (iterator.PSlice {| iterator.Values := va;
                                iterator.index := len va |},
             Some {| iterator.Values := vb; iterator.index := len vb |})).
Proof.
  intros Hlen Hfuel.
  unfold functional.DotProduct, iterator.Enumerable_Count,
    iterator.Slice_Count.
  cbn [mbind Outcome_bind iterator.Values iterator.index].
  rewrite bool_decide_eq_false_2 by (unfold len; lia).
  unfold functional.Reduce_capturing, functional.ForEach, iterator.as_Iterator.
  erewrite (ForEach_loop_dot _ va vb fuel 0 0 0); [| |lia..].
  2:{ intros accum sb x. cbn [iterator.Enumerable_Next].
      destruct (iterator.Slice_Next sb) as [[o sb']| | |]; try done.
      cbn [mbind Outcome_bind].
      by destruct (optional.Option_Expect o). }
  cbn [mbind Outcome_bind drop]. do 2 f_equal.
  apply (fold_left_dot (zip va vb) 0).
Qed.

Lemma DotProduct_int_witness :
  length ([6; -2; -1]%Z : list Z) = length ([2; 10; 2]%Z : list Z) /\
  (length ([6; -2; -1]%Z : list Z) < 4)%nat /\
  answer (functional.DotProduct 4
            (Some {| iterator.Values := [6; -2; -1]; iterator.index := 0 |})
            (Some {| iterator.Values := [2; 10; 2]; iterator.index := 0 |}))
  = Return (-10).
Proof.
  assert (length ([6; -2; -1]%Z : list Z) = length ([2; 10; 2]%Z : list Z))
    as Hlen by reflexivity.
  assert (length ([6; -2; -1]%Z : list Z) < 4)%nat as Hfuel by (simpl; lia).
  split; [exact Hlen|]. split; [exact Hfuel|].
  rewrite (DotProduct_int [6; -2; -1] [2; 10; 2] 4 Hlen Hfuel).
  vm_compute. reflexivity.
Defined.

(** X21: [DotProduct] panics, before any element is read, when the two
    counts of remaining elements differ, and with the nil dereference of
    the runtime when either argument is the nil interface. *)
Theorem DotProduct_panics {T : Type} `{ZeroValue T} `{functional.Number T}
  (sa sb : iterator.Slice T) (b : iterator.Enumerable T) (fuel : nat) :
  iterator.Slice_Count sa <> iterator.Slice_Count sb ->
  functional.DotProduct fuel (Some sa) (Some sb)
  = Panic "functional: dot product on iterators with different dimensions" /\
  functional.DotProduct fuel None b = Panic nil_dereference /\
  functional.DotProduct fuel (Some sa) None = Panic nil_dereference.
Proof.
  intros Hcount. unfold functional.DotProduct. simpl.
  by rewrite bool_decide_eq_true_2.
Qed.

Lemma DotProduct_panics_witness :
  let sa := {| iterator.Values := ([] : list Z); iterator.index := 0 |} in
  let sb := {| iterator.Values := [42]; iterator.index := 0 |} in
  iterator.Slice_Count sa <> iterator.Slice_Count sb /\
  functional.DotProduct 2 (Some sa) (Some sb)
  = Panic "functional: dot product on iterators with different dimensions".
Proof.
  intros sa sb.
  assert (iterator.Slice_Count sa <> iterator.Slice_Count sb) as Hcount by done.
  split; [exact Hcount|].
  destruct (DotProduct_panics sa sb None 2 Hcount) as [E _]. exact E.
Defined.

(** X22: at the type [int], [MultiplyVector], [Square], [Triple] and
    [Quadruple] drain their argument as [Collect] does and return a fresh
    bounded-sequence iterator over, in order, the products by the factor,
    the squares, the cubes and the fourth powers of the elements, each
    reduced to 64 bits. *)
Theorem powers_int (iter : iterator.Iterator Z) (factor : Z) (fuel : nat) :
  functional.MultiplyVector fuel iter factor
  = ('(xs, it) ← functional.Collect fuel iter;
     Return (examples.iteratorOver ((fun x => wrap64 (x * factor)) <$> xs), it)) /\
  functional.Square fuel iter
  = ('(xs, it) ← functional.Collect fuel iter;
     Return (examples.iteratorOver ((fun x => wrap64 (x ^ 2)) <$> xs), it)) /\
  functional.Triple fuel iter
  = ('(xs, it) ← functional.Collect fuel iter;
     Return (examples.iteratorOver ((fun x => wrap64 (x ^ 3)) <$> xs), it)) /\
  functional.Quadruple fuel iter
  = ('(xs, it) ← functional.Collect fuel iter;
     Return (examples.iteratorOver ((fun x => wrap64 (x ^ 4)) <$> xs), it)).
Proof.
  unfold functional.MultiplyVector, functional.Square, functional.Triple,
    functional.Quadruple.
  rewrite !Map_via_Collect.
  destruct (functional.Collect fuel iter) as [[xs it]| | |]; try done.
  cbn [mbind Outcome_bind].
  repeat split; do 3 f_equal; apply list_fmap_ext; intros _ x _;
    cbn [functional.times functional.int_Number]; unfold int_mul;
    rewrite ?(wrap64_mul_l (x * x) x), ?wrap64_mul_l; f_equal; ring.
Qed.

(** ** Package functional, version 1: nil functions, composition, slices *)

Lemma Chain_loop_nil {T : Type} (fns : list (func T T)) (f : T -> T) :
  None ∈ fns ->
  functions.Chain_loop fns f = Panic "functional: nil chain function".
Proof.
  revert f. induction fns as [|[fn|] fns IH]; intros f Hnil; simpl.
  - by apply elem_of_nil in Hnil.
  - apply IH. by apply elem_of_cons in Hnil as [|].
  - reflexivity.
Qed.

Lemma Chain_loop_returns {T : Type} (fns : list (func T T)) (f : T -> T) :
  None ∉ fns -> returns (functions.Chain_loop fns f) = true.
Proof.
  revert f. induction fns as [|[fn|] fns IH]; intros f Hnil; simpl.
  - reflexivity.
  - apply IH. intros Hin. apply Hnil. by apply list_elem_of_further.
  - destruct Hnil. apply list_elem_of_here.
Qed.

Lemma Chain_loop_panic_inv {T : Type} (fns : list (func T T)) (f : T -> T)
  (msg : string) :
  functions.Chain_loop fns f = Panic msg -> None ∈ fns.
Proof.
  revert f. induction fns as [|[fn|] fns IH]; intros f Hpanic; simpl in *.
  - discriminate.
  - apply list_elem_of_further. by apply IH in Hpanic.
  - apply list_elem_of_here.
Qed.

(** X23: [Chain] panics with its own message as soon as one of the
    functions is nil, wherever the nil function stands and whatever the
    others are, and returns a function when none is nil. *)
Theorem Chain_panics_iff_nil {T : Type} (fns : list (func T T)) :
  (None ∈ fns ->
   functions.Chain fns = Panic "functional: nil chain function") /\
  (None ∉ fns -> returns (functions.Chain fns) = true) /\
  (functions.Chain fns = Panic "functional: nil chain function" <->
   None ∈ fns).
Proof.
  assert (None ∈ fns ->
          functions.Chain fns = Panic "functional: nil chain function") as Hnil
    by apply Chain_loop_nil.
  assert (None ∉ fns -> returns (functions.Chain fns) = true) as Hret
    by apply Chain_loop_returns.
  split; [done|]. split; [done|]. split; [|done].
  apply Chain_loop_panic_inv.
Qed.

(** X24: [Chain] turns concatenation into composition: the chain of two
    lists of functions put end to end maps [x] to what the chain of the
    first list makes of what the chain of the second makes of [x]; the
    chain of no function is the identity; and [Compose(f, g)] is the chain
    of [f] and [g]. *)
Theorem Chain_of_concatenation {T : Type} (fs gs : list (T -> T))
  (f h : T -> T) :
  (exists chain_all chain_fs chain_gs,
     functions.Chain (Some <$> fs ++ gs) = Return chain_all /\
     functions.Chain (Some <$> fs) = Return chain_fs /\
     functions.Chain (Some <$> gs) = Return chain_gs /\
     forall x, chain_all x = chain_fs (chain_gs x)) /\
  (exists chain_none,
     functions.Chain ([] : list (func T T)) = Return chain_none /\
     forall x, chain_none x = x) /\
  (exists composed chained,
     functions.Compose (Some f) (Some h) = Return composed /\
     functions.Chain [Some f; Some h] = Return chained /\
     forall x, composed x = f (h x) /\ chained x = composed x).
Proof.
  split; [|split].
  - destruct (Chain_loop_spec (fs ++ gs) (fun t => t)) as (g & Hg & Hgx).
    destruct (Chain_loop_spec fs (fun t => t)) as (gf & Hgf & Hgfx).
    destruct (Chain_loop_spec gs (fun t => t)) as (gg & Hgg & Hggx).
    exists g, gf, gg. repeat split; try done.
    intros x. by rewrite Hgx, Hgfx, Hggx, foldr_app.
  - by eexists.
  - eexists _, _. by repeat split.
Qed.

(** X25: the functions of version 1 check their function argument before
    anything else: [Filter], [Map] and [Reduce] panic with their own
    message on a nil function for every slice, the empty one included, and
    [Compose] names the first of its two arguments that is nil. *)
Theorem version1_nil_functions_panic {T To Out : Type} `{ZeroValue To}
  (list : list T) (f : T -> To) (g : func T To) :
  functions.Filter list None = Panic "functional: nil filter" /\
  functions.Map (To := To) list None = Panic "functional: nil mapper" /\
  functions.Reduce (To := To) list None = Panic "functional: nil reducer" /\
  functions.Compose (Out := Out) None g = Panic "functional: nil f" /\
  functions.Compose (Some f) (None : func T T) = Panic "functional: nil g".
Proof. by repeat split. Qed.

Lemma fold_left_filter {T : Type} (p : T -> bool) (list acc : Datatypes.list T) :
  fold_left (fun filteredList v => if p v then filteredList ++ [v]
                                   else filteredList) list acc
  = acc ++ List.filter p list.
Proof.
  revert acc. induction list as [|v list IH]; intros acc; simpl.
  - by rewrite app_nil_r.
  - rewrite IH. destruct (p v); [|done]. by rewrite <- app_assoc.
Qed.

Lemma fold_left_map {T To : Type} (f : T -> To) (list : Datatypes.list T)
  (acc : Datatypes.list To) :
  fold_left (fun mappedList v => mappedList ++ [f v]) list acc
  = acc ++ (f <$> list).
Proof.
  revert acc. induction list as [|v list IH]; intros acc; simpl.
  - by rewrite app_nil_r.
  - rewrite IH. by rewrite <- app_assoc.
Qed.

(** X26: the slice version of [Filter] returns the elements that satisfy
    the filter, in their original order: every element of the result
    satisfies it, filtering the result again changes nothing, and the
    iterator version over the same values yields the same sequence. *)
Theorem Filter_slice {T : Type} `{ZeroValue T} (p : T -> bool)
  (list : list T) :
  functions.Filter list (Some p) = Return (List.filter p list) /\
  (forall v, v ∈ List.filter p list <-> v ∈ list /\ p v = true) /\
  functions.Filter (List.filter p list) (Some p)
  = Return (List.filter p list) /\
  answer (functional.Filter (S (length list)) (examples.iteratorOver list)
            (Some p))
  = Return (examples.iteratorOver (List.filter p list)).
Proof.
  assert (forall l, functions.Filter l (Some p) = Return (List.filter p l))
    as Hfilter.
  { intros l. unfold functions.Filter. by rewrite fold_left_filter. }
  split; [apply Hfilter|]. split; [|split].
  - intros v. rewrite !list_elem_of_In. apply filter_In.
  - rewrite Hfilter. f_equal. induction list as [|v list IH]; [done|].
    simpl. destruct (p v) eqn:Hv; [|done]. simpl. by rewrite Hv, IH.
  - by rewrite Filter_via_Collect, Collect_Slice by lia.
Qed.

(** X27: the slice version of [Map] returns the images of the elements in
    their original order, as many as there were elements, and mapping twice
    is mapping once with the composed function. *)
Theorem Map_slice {T To Out : Type} (f : T -> To) (g : To -> Out)
  (list : list T) :
  functions.Map list (Some f) = Return (f <$> list) /\
  length (f <$> list) = length list /\
  (forall i : nat, (f <$> list) !! i = f <$> list !! i) /\
  (mapped ← functions.Map list (Some f); functions.Map mapped (Some g))
  = functions.Map list (Some (fun x => g (f x))).
Proof.
  assert (forall A B (k : A -> B) l,
            functions.Map l (Some k) = Return (k <$> l)) as Hmap.
  { intros A B k l. unfold functions.Map. by rewrite fold_left_map. }
  split; [apply Hmap|]. split; [apply length_fmap|].
  split; [intros i; apply list_lookup_fmap|].
  rewrite !Hmap. cbn [mbind Outcome_bind]. rewrite Hmap.
  f_equal. by rewrite <- list_fmap_compose.
Qed.
